(** * medical_assisitant: the response quality-assurance pipeline

    A shallow embedding of [core.py], [utils.py], [cli.py] and [app.py].

    Python [str] values are sequences of Unicode code points, so a string is
    a [list N] of code points: [len] is [length], [in] between two strings is
    substring containment, [strip()] removes the code points for which
    [str.isspace] holds from both ends.  String literals of the source are
    written as Rocq strings (UTF-8 bytes) and decoded to code points. *)

From Stdlib Require Import Ascii String List Bool NArith ZArith Lia.
Import ListNotations.

Set Implicit Arguments.
Set Warnings "-register-all".

(* ================================================================= *)
(** ** Python strings *)

Module Py.

Definition str := list N.

(** *** UTF-8 decoding (the [utf-8] codec, strict error handler) *)

Definition bytes_of_string (s : string) : list N :=
  map N_of_ascii (list_ascii_of_string s).

Definition is_cont (b : N) : bool := ((128 <=? b) && (b <=? 191))%N.

Definition cont_bits (b : N) : N := (b - 128)%N.

(** [None] stands for [UnicodeDecodeError]: an invalid start byte, a
    truncated or overlong sequence, a surrogate, or a value above
    U+10FFFF. *)
Fixpoint utf8_decode (bs : list N) : option str :=
  match bs with
  | [] => Some []
  | b0 :: r0 =>
    if (b0 <? 128)%N then option_map (cons b0) (utf8_decode r0)
    else if (b0 <? 194)%N then None
    else if (b0 <? 224)%N then
      match r0 with
      | b1 :: r1 =>
        if is_cont b1
        then option_map (cons ((b0 - 192) * 64 + cont_bits b1)%N)
                        (utf8_decode r1)
        else None
      | _ => None
      end
    else if (b0 <? 240)%N then
      match r0 with
      | b1 :: b2 :: r2 =>
        let c := ((b0 - 224) * 4096 + cont_bits b1 * 64 + cont_bits b2)%N in
        if is_cont b1 && is_cont b2 && (2048 <=? c)%N
           && negb ((55296 <=? c) && (c <=? 57343))%N
        then option_map (cons c) (utf8_decode r2)
        else None
      | _ => None
      end
    else if (b0 <? 245)%N then
      match r0 with
      | b1 :: b2 :: b3 :: r3 =>
        let c := ((b0 - 240) * 262144 + cont_bits b1 * 4096
                  + cont_bits b2 * 64 + cont_bits b3)%N in
        if is_cont b1 && is_cont b2 && is_cont b3
           && (65536 <=? c)%N && (c <=? 1114111)%N
        then option_map (cons c) (utf8_decode r3)
        else None
      | _ => None
      end
    else None
  end.

(** A literal of the source text. *)
Definition lit (s : string) : str :=
  match utf8_decode (bytes_of_string s) with
  | Some l => l
  | None => []
  end.

(** *** [str.isspace] on one code point and [str.strip()] *)

Definition isspace (c : N) : bool :=
  (((9 <=? c) && (c <=? 13))
   || ((28 <=? c) && (c <=? 32))
   || (c =? 133) || (c =? 160) || (c =? 5760)
   || ((8192 <=? c) && (c <=? 8202))
   || (c =? 8232) || (c =? 8233) || (c =? 8239) || (c =? 8287)
   || (c =? 12288))%N.

Fixpoint lstrip (s : str) : str :=
  match s with
  | [] => []
  | c :: s' => if isspace c then lstrip s' else s
  end.

Definition rstrip (s : str) : str := rev (lstrip (rev s)).

Definition strip (s : str) : str := rstrip (lstrip s).

(** *** [==] and [in] on strings *)

Fixpoint str_eqb (a b : str) : bool :=
  match a, b with
  | [], [] => true
  | x :: a', y :: b' => (x =? y)%N && str_eqb a' b'
  | _, _ => false
  end.

(** [startswith w t]: [t.startswith(w)]. *)
Fixpoint startswith (w t : str) : bool :=
  match w, t with
  | [], _ => true
  | _ :: _, [] => false
  | x :: w', y :: t' => (x =? y)%N && startswith w' t'
  end.

(** [contains w t]: the Python expression [w in t] for two strings. *)
Fixpoint contains (w t : str) : bool :=
  match t with
  | [] => startswith w []
  | _ :: t' => startswith w t || contains w t'
  end.

(** [c in s] for a single character [c] and a set of characters [s]. *)
Definition char_in (c : N) (s : list N) : bool := existsb (N.eqb c) s.

(** The one-character string of a line feed. *)
Definition newline : str := [10%N].

(** [sep.join(lines)]. *)
Fixpoint join (sep : str) (lines : list str) : str :=
  match lines with
  | [] => []
  | [l] => l
  | l :: ls => l ++ sep ++ join sep ls
  end.

End Py.

Import Py.

(* ================================================================= *)
(** ** Python values, logging records *)

(** The dynamically typed values the code handles: what [json.load] and
    [r.json()] produce, and what may be passed where a [str] is expected.
    Numbers are integers here; a dict keeps its items in iteration order. *)
Inductive value : Type :=
| VNone
| VBool (b : bool)
| VInt (n : Z)
| VStr (s : str)
| VList (l : list value)
| VDict (items : list (str * value)).

(** Truth value testing, as in [if x:] and [not x]. *)
Definition truthy (v : value) : bool :=
  match v with
  | VNone => false
  | VBool b => b
  | VInt n => negb (n =? 0)%Z
  | VStr s => negb (str_eqb s [])
  | VList l => match l with [] => false | _ => true end
  | VDict m => match m with [] => false | _ => true end
  end.

Inductive level : Type := INFO | WARNING | ERROR.

(** One record handed to the [logging] module. *)
Definition log_record : Type := (level * str)%type.

(* ================================================================= *)
(** ** core.py *)

Module Core.

(** [SYNONYMS]: a dict literal, in source order. *)
Definition SYNONYMS : list (str * list str) :=
  [ (lit "肚子痛", [lit "胃痛"; lit "腹痛"; lit "肚悶"; lit "腸胃不舒服"]);
    (lit "拉肚子", [lit "腹瀉"; lit "大便水"; lit "便稀"; lit "跑廁所"]);
    (lit "頭暈", [lit "暈眩"; lit "暈頭轉向"; lit "眼花"]) ].

(** [d.get(key, default)] on a dict with string keys. *)
Fixpoint dict_get {A : Type} (d : list (str * A)) (key : str) (default : A) : A :=
  match d with
  | [] => default
  | (k, v) :: d' => if str_eqb k key then v else dict_get d' key default
  end.

(** The two pieces of the f-string template of [fallback_response], around
    the interpolated [user_input]. *)
Definition fallback_head : str := lit "您好～我了解您提到「".

Definition fallback_tail : str :=
  lit "」，"
  ++ lit "雖然我這裡沒有找到確切的建議，但請您不用太擔心。"
  ++ lit "先多喝點溫開水，好好休息。"
  ++ lit "如果症狀持續或讓您很不舒服，建議和家人一起去看醫師。"
  ++ lit "如果還有其他不舒服，也可以再問我喔，我會陪著您 😊".

Definition fallback_response (user_input : str) : str :=
  fallback_head ++ user_input ++ fallback_tail.

Definition SIMPLIFIED_CHARS : list N := lit "后发为亿仅厉压妈属层厂广庆录觉".

(** [any(c in SIMPLIFIED_CHARS for c in text)] *)
Definition contains_simplified_chinese (text : str) : bool :=
  existsb (fun c => char_in c SIMPLIFIED_CHARS) text.

(** The two sets of words; membership tests below do not depend on the
    iteration order of a Python set. *)
Definition DANGER_WORDS : list str :=
  [ lit "癌"; lit "腫瘤"; lit "敗血"; lit "末期"; lit "惡性"; lit "器官衰竭";
    lit "死亡"; lit "截肢"; lit "痙攣"; lit "糖尿病"; lit "腎病變";
    lit "慢性病"; lit "病發"; lit "惡化" ].

Definition NONSENSE_WORDS : list str :=
  [ lit "滴水"; lit "肝膜病"; lit "寄生處機"; lit "胎婦與孕婦的危險" ].

Definition WARN_WORDS : log_record := (WARNING, lit "回應含有危險或無意義詞彙").
Definition WARN_SIMPLIFIED : log_record := (WARNING, lit "回應含有簡體字").
Definition WARN_SHORT : log_record :=
  (WARNING, lit "回應過短，可能無法幫助使用者").

(** [is_valid_response(text, min_length)]: the returned boolean together
    with the records it logs. *)
Definition is_valid_response (text : value) (min_length : Z)
  : bool * list log_record :=
  match text with
  | VStr s =>
    if negb (truthy (VStr s)) then (false, [])
    else if existsb (fun w => contains w s) (DANGER_WORDS ++ NONSENSE_WORDS)
    then (false, [WARN_WORDS])
    else if contains_simplified_chinese s
    then (false, [WARN_SIMPLIFIED])
    else if (Z.of_nat (length (strip s)) <? min_length)%Z
    then (false, [WARN_SHORT])
    else (true, [])
  | _ => (false, [])
  end.

(** The default of the keyword argument [min_length]. *)
Definition default_min_length : Z := 50%Z.

(** The boolean a caller of [is_valid_response(text)] branches on. *)
Definition valid (text : str) : bool :=
  fst (is_valid_response (VStr text) default_min_length).

(** An entry of the knowledge base as [format_response] reads it: each key
    may be absent ([dict.get] then takes its default). *)
Record AdviceRecord : Type := {
  possible_causes : option (list str);
  self_care : option (list str);
  when_to_see_doctor : option (list str);
  encouragement : option str
}.

Definition get_or {A : Type} (field : option A) (default : A) : A :=
  match field with Some v => v | None => default end.

Definition bullet : str := lit "   - ".

(** The body of the [for title, items in sections] loop: what one section
    appends to [lines]. *)
Definition section_lines (title : str) (items : list str) : list str :=
  title ::
  match items with
  | [] => [bullet ++ lit "（暫無資料）"]
  | _ => map (fun item => bullet ++ item) items
  end.

Definition format_response (entry : AdviceRecord) : str :=
  let sections :=
    [ (lit "1. 可能原因：", get_or (possible_causes entry) []);
      (lit "2. 在家可以怎麼做：", get_or (self_care entry) []);
      (lit "3. 什麼時候需要看醫生：", get_or (when_to_see_doctor entry) []) ] in
  let lines := flat_map (fun '(title, items) => section_lines title items) sections in
  let lines := lines ++ [lit "4. 鼓勵的話："] in
  let lines :=
    lines ++ [bullet ++ get_or (encouragement entry) (lit "請多注意休息喔！")] in
  join newline lines.

(** [any(term in user_input for term in [key] + SYNONYMS.get(key, []))] *)
Definition key_matches (key user_input : str) : bool :=
  existsb (fun term => contains term user_input)
          (key :: dict_get SYNONYMS key []).

(** The [for key, entry in medical_db.items()] loop. *)
Fixpoint scan_db (db : list (str * AdviceRecord)) (user_input : str)
  : option str :=
  match db with
  | [] => None
  | (key, entry) :: db' =>
    if key_matches key user_input then Some (format_response entry)
    else scan_db db' user_input
  end.

(** [lookup_medical_db]; the argument is [None] or a string, the module
    global [medical_db] is a parameter. *)
Definition lookup_medical_db (medical_db : list (str * AdviceRecord))
           (user_input : option str) : option str :=
  match user_input with
  | None => None
  | Some s =>
    if negb (truthy (VStr s)) then None
    else scan_db medical_db (strip s)
  end.

End Core.

Import Core.

(* ================================================================= *)
(** ** Exceptions and the knowledge-base file *)

(** The exceptions that escape a function of the program.  The ones the
    code catches ([RequestException], [JSONDecodeError], [OSError]) appear
    only as outcomes of the environment. *)
Inductive exn : Type :=
| AttributeError
| UnicodeDecodeError
| RecursionError
| ValueError.

Inductive result (A : Type) : Type :=
| Ok (a : A)
| Raise (e : exn).

Arguments Ok {A} a.
Arguments Raise {A} e.

Module Store.

(** What the file system holds at [DB_PATH]. *)
Inductive db_file : Type :=
| NoFile                          (* [os.path.exists(DB_PATH)] is false *)
| Unreadable (err : str)          (* [open] or the read raises [OSError(err)] *)
| FileBytes (content : list N).   (* the bytes of the file *)

(** What [json.loads] does on the decoded text: it returns the value
    parsed, raises [JSONDecodeError] with a message, or raises something
    else ([RecursionError] on deep nesting, a [ValueError] that is not a
    [JSONDecodeError] on an integer with too many digits). *)
Inductive json_outcome : Type :=
| JsonValue (v : value)
| JsonDecodeError (msg : str)
| JsonRaises (e : exn).

Section Load.

(** The JSON grammar is not modelled. *)
Variable json_loads : str -> json_outcome.

(** [json.load(f)] on a file opened with [encoding="utf-8"]: the bytes are
    decoded first, and [UnicodeDecodeError] is a [ValueError] that is
    neither a [JSONDecodeError] nor an [OSError].  The [except] clause
    names these two only, so whatever else [json.load] raises escapes. *)
Definition load_medical_db (f : db_file) : result value * list log_record :=
  match f with
  | NoFile =>
    (Ok (VDict []),
     [(WARNING, lit "找不到 medical_knowledge.json，將使用空白知識庫")])
  | Unreadable err =>
    (Ok (VDict []), [(ERROR, lit "無法讀取醫療知識庫: " ++ err)])
  | FileBytes content =>
    match utf8_decode content with
    | None => (Raise UnicodeDecodeError, [])
    | Some text =>
      match json_loads text with
      | JsonValue v => (Ok v, [])
      | JsonDecodeError err =>
        (Ok (VDict []), [(ERROR, lit "無法讀取醫療知識庫: " ++ err)])
      | JsonRaises e => (Raise e, [])
      end
    end
  end.

End Load.

End Store.

(* ================================================================= *)
(** ** The collaborators and the monad of the orchestration *)

(** The Ollama service behind [requests.post(url, json=payload, timeout=30)],
    [raise_for_status()] and [r.json()]: from a state of the outside world,
    the decoded body, or [None] when a [RequestException] is raised. *)
Class Generator (G : Type) : Type := {
  http_post : str -> value -> G -> option value * G
}.

(** [OpenCC("s2t").convert]. *)
Class Normalizer : Type := {
  cc_convert : str -> str
}.

(** The state a request runs in: the outside world, and the requests
    posted so far, oldest first (kept to count the invocations). *)
Record world (G : Type) : Type := {
  gen : G;
  sent : list (str * value)
}.

Definition M (G A : Type) : Type := world G -> result A * world G.

Definition ret {G A : Type} (a : A) : M G A := fun w => (Ok a, w).

Definition raise {G A : Type} (e : exn) : M G A := fun w => (Raise e, w).

Definition bind {G A B : Type} (m : M G A) (k : A -> M G B) : M G B :=
  fun w =>
    match m w with
    | (Ok a, w') => k a w'
    | (Raise e, w') => (Raise e, w')
    end.

Notation "x <- m ;; k" := (bind m (fun x => k))
  (at level 61, m at next level, right associativity).

(** [v.get(key, default)]: only a dict has the method. *)
Definition py_get {G : Type} (v : value) (key : str) (default : value)
  : M G value :=
  match v with
  | VDict items => ret (dict_get items key default)
  | _ => raise AttributeError
  end.

(** [v.strip()]: only a string has the method. *)
Definition py_strip {G : Type} (v : value) : M G str :=
  match v with
  | VStr s => ret (strip s)
  | _ => raise AttributeError
  end.

(** [to_traditional] of core.py. *)
Definition to_traditional {normalizer : Normalizer} (text : str) : str :=
  cc_convert text.

(* ================================================================= *)
(** ** utils.py *)

Module Utils.

Definition MODEL : str := lit "qwen:1.8b-chat".
Definition OLLAMA_URL_CLI : str := lit "http://localhost:11434/api/chat".
Definition OLLAMA_URL_WEB : str := lit "http://localhost:11434/api/generate".

Definition FALLBACK_HINT : str :=
  lit "請用更簡單的方式說明，避免提到專業名詞與可怕疾病，"
  ++ lit "語氣溫和，針對年長者，務必使用正體中文。".

(** The two strings the wrappers return when they give up. *)
Definition APOLOGY : str := lit "抱歉，我目前無法給出合適的建議，請諮詢醫生。".
Definition SYSTEM_ERROR : str := lit "⚠️ 系統錯誤，請稍後再試。".

(** The f-string of [build_cli_prompt], line by line; it ends with a line
    feed. *)
Definition build_cli_prompt (user_question : str) : str :=
  join newline
    [ lit "你是一位貼心的健康小幫手，專門幫助台灣的長輩理解身體小狀況。";
      lit "請針對以下提問，用溫和、簡單、白話的語氣說明，千萬不要提到癌症、腎衰竭、死亡等詞語。";
      lit "請使用正體中文。";
      [];
      lit "請遵照以下格式回答：";
      lit "1. 可能原因（請用「有可能是…也可能是…」的語氣，避免肯定診斷）";
      lit "2. 在家可以怎麼做（列 2~3 點，像是「多喝溫水」、「注意休息」）";
      lit "3. 什麼時候需要看醫生（舉 2 個簡單例子）";
      lit "4. 溫暖鼓勵語";
      [];
      lit "以「您好～」開頭，「如果還有其他不舒服，也可以再問我喔，我會陪著您 😊」結尾。";
      [];
      lit "問題如下：";
      lit "「" ++ user_question ++ lit "」";
      [] ].

Definition build_web_prompt (user_input : str) : str :=
  join newline
    [ lit "你是一位貼心的中文健康助理，請用溫暖、親切、容易懂的繁體中文，幫助長者理解他們的身體狀況。";
      lit "請避免使用嚇人的醫學術語，並保持語氣溫和。";
      lit "請以「您好～」開頭，以「如果還有其他不舒服，也可以再問我喔，我會陪著您 😊」結尾。";
      [];
      lit "問題：";
      lit "「" ++ user_input ++ lit "」";
      [] ].

Section Wrappers.

Context {G : Type} {generator : Generator G} {normalizer : Normalizer}.

(** [_post_request]: a [RequestException] is caught and turned into [None];
    the request is appended to [sent] either way. *)
Definition _post_request (url : str) (payload : value) : M G value :=
  fun w =>
    let '(r, g') := http_post url payload (gen w) in
    let w' := {| gen := g'; sent := sent w ++ [(url, payload)] |} in
    match r with
    | Some v => (Ok v, w')
    | None => (Ok VNone, w')
    end.

Definition cli_payload (prompt : str) : value :=
  VDict [ (lit "model", VStr MODEL);
          (lit "messages",
           VList [VDict [ (lit "role", VStr (lit "user"));
                          (lit "content", VStr prompt) ]]);
          (lit "stream", VBool false) ].

Definition web_payload (prompt : str) : value :=
  VDict [ (lit "model", VStr MODEL);
          (lit "prompt", VStr prompt);
          (lit "stream", VBool false) ].

(** The body of [query_ollama_cli], with its recursive call as [self]. *)
Definition query_ollama_cli_body (self : str -> bool -> M G str)
           (prompt : str) (use_fallback : bool) : M G str :=
  response <- _post_request OLLAMA_URL_CLI (cli_payload prompt) ;;
  if truthy response then
    message <- py_get response (lit "message") (VDict []) ;;
    content <- py_get message (lit "content") (VStr []) ;;
    answer <- py_strip content ;;
    if valid answer then ret (to_traditional answer)
    else if negb use_fallback then
      let modified_prompt := prompt ++ newline ++ newline ++ FALLBACK_HINT in
      self modified_prompt true
    else ret APOLOGY
  else ret SYSTEM_ERROR.

(** The recursion is cut by [fuel].  A call recurses at most once, with
    [use_fallback] set, so [query_ollama_cli] below has enough of it: it
    satisfies the recursive equation of the source
    ([query_ollama_cli_unfold]) and the branch for no fuel is never
    reached ([query_ollama_cli_fuel_enough]). *)
Fixpoint query_ollama_cli_fuel (fuel : nat) (prompt : str)
         (use_fallback : bool) : M G str :=
  match fuel with
  | O => ret APOLOGY
  | S fuel' =>
    query_ollama_cli_body (query_ollama_cli_fuel fuel') prompt use_fallback
  end.

Definition query_ollama_cli (prompt : str) (use_fallback : bool) : M G str :=
  query_ollama_cli_fuel 2 prompt use_fallback.

(** The body of [query_ollama_web]. *)
Definition query_ollama_web_body (self : str -> bool -> M G str)
           (user_input : str) (use_fallback : bool) : M G str :=
  let prompt := build_web_prompt user_input in
  response <- _post_request OLLAMA_URL_WEB (web_payload prompt) ;;
  if truthy response then
    content <- py_get response (lit "response") (VStr []) ;;
    answer <- py_strip content ;;
    if valid answer then ret (to_traditional answer)
    else if negb use_fallback then
      let modified_input := user_input ++ lit "。" ++ FALLBACK_HINT in
      self modified_input true
    else ret APOLOGY
  else ret SYSTEM_ERROR.

Fixpoint query_ollama_web_fuel (fuel : nat) (user_input : str)
         (use_fallback : bool) : M G str :=
  match fuel with
  | O => ret APOLOGY
  | S fuel' =>
    query_ollama_web_body (query_ollama_web_fuel fuel') user_input use_fallback
  end.

Definition query_ollama_web (user_input : str) (use_fallback : bool)
  : M G str :=
  query_ollama_web_fuel 2 user_input use_fallback.

End Wrappers.

End Utils.

Import Utils.

(* ================================================================= *)
(** ** cli.py and app.py: one request *)

(** What the front end shows for a request: the formatted record of the
    knowledge base, or the reply of the model path. *)
Inductive shown : Type :=
| FromDatabase (text : str)
| FromModel (text : str).


(** [if db_reply:] on an optional string. *)
Definition truthy_reply (db_reply : option str) : bool :=
  match db_reply with
  | Some r => truthy (VStr r)
  | None => false
  end.

Section FrontEnds.

Context {G : Type} {generator : Generator G} {normalizer : Normalizer}.

(** The module global [medical_db] of core.py. *)
Variable medical_db : list (str * AdviceRecord).

(** The body of the loop of [run_cli] for one [question], from the lookup
    on. *)
Definition run_cli_turn (question : str) : M G shown :=
  let db_reply := lookup_medical_db medical_db (Some question) in
  if truthy_reply db_reply then ret (FromDatabase (get_or db_reply []))
  else
    let prompt := build_cli_prompt question in
    reply <- query_ollama_cli prompt false ;;
    reply <- (if negb (valid reply)
              then query_ollama_cli (prompt ++ newline ++ FALLBACK_HINT) false
              else ret reply) ;;
    let reply := if negb (valid reply) then fallback_response question
                 else reply in
    let reply := to_traditional reply in
    ret (FromModel reply).

(** The branch of [run_web] taken for a non-blank [user_input]. *)
Definition run_web_turn (user_input : str) : M G shown :=
  let db_reply := lookup_medical_db medical_db (Some user_input) in
  if truthy_reply db_reply then ret (FromDatabase (get_or db_reply []))
  else
    reply <- query_ollama_web user_input false ;;
    reply <- (if negb (valid reply)
              then query_ollama_web (user_input ++ newline ++ FALLBACK_HINT)
                                    false
              else ret reply) ;;
    let reply := if negb (valid reply) then fallback_response user_input
                 else reply in
    let reply := to_traditional reply in
    ret (FromModel reply).

End FrontEnds.

(* ================================================================= *)
(** ** The verdict of the specification's validator *)

Module Spec.

Inductive reason : Type :=
| empty_or_non_text
| contains_unsafe_term
| contains_nonsense_term
| contains_wrong_script
| too_short.

Inductive ValidationVerdict : Type :=
| Accepted
| Rejected (r : reason).

(** The validator as the specification words it (section 4.3): the five
    checks in their stated order, the first failing one giving the reason.
    It is compared with [is_valid_response] below. *)
Definition spec_validate (text : value) (minLength : Z) : ValidationVerdict :=
  match text with
  | VStr s =>
    if str_eqb s [] then Rejected empty_or_non_text
    else if existsb (fun w => contains w s) DANGER_WORDS
    then Rejected contains_unsafe_term
    else if existsb (fun w => contains w s) NONSENSE_WORDS
    then Rejected contains_nonsense_term
    else if existsb (fun c => char_in c SIMPLIFIED_CHARS) s
    then Rejected contains_wrong_script
    else if (Z.of_nat (length (strip s)) <? minLength)%Z
    then Rejected too_short
    else Accepted
  | _ => Rejected empty_or_non_text
  end.

(** What is left of a verdict in the result of [is_valid_response]: the
    boolean, and the warning that is logged. *)
Definition verdict_bool (v : ValidationVerdict) : bool :=
  match v with Accepted => true | Rejected _ => false end.

Definition verdict_log (v : ValidationVerdict) : list log_record :=
  match v with
  | Accepted => []
  | Rejected empty_or_non_text => []
  | Rejected contains_unsafe_term => [WARN_WORDS]
  | Rejected contains_nonsense_term => [WARN_WORDS]
  | Rejected contains_wrong_script => [WARN_SIMPLIFIED]
  | Rejected too_short => [WARN_SHORT]
  end.

(** A text without any danger word, nonsense word or character of
    [SIMPLIFIED_CHARS]. *)
Definition clean (t : str) : bool :=
  negb (existsb (fun w => contains w t) (DANGER_WORDS ++ NONSENSE_WORDS))
  && negb (contains_simplified_chinese t).

(** The strings of a record that [format_response] renders. *)
Definition record_texts (entry : AdviceRecord) : list str :=
  get_or (possible_causes entry) []
  ++ get_or (self_care entry) []
  ++ get_or (when_to_see_doctor entry) []
  ++ [get_or (encouragement entry) (lit "請多注意休息喔！")].

(** The keyword [key], or one of its synonyms, occurs in [text]. *)
Definition keyword_occurs (key text : str) : Prop :=
  contains key text = true
  \/ exists syn, In syn (dict_get SYNONYMS key []) /\ contains syn text = true.

End Spec.

Import Spec.

(* ================================================================= *)
(** ** Concrete collaborators, used to run the program on examples *)

Module Samples.

(** A generator that answers from a script: each post consumes the next
    entry, [None] being a transport failure; an exhausted script fails. *)
Definition scripted : Generator (list (option value)) :=
  {| http_post := fun _ _ script =>
       match script with
       | [] => (None, [])
       | r :: script' => (r, script')
       end |}.

(** A service that cannot be reached. *)
Definition offline : Generator unit :=
  {| http_post := fun _ _ g => (None, g) |}.

(** The body [/api/chat] answers with for the text [t]. *)
Definition chat_body (t : str) : value :=
  VDict [ (lit "message",
           VDict [ (lit "role", VStr (lit "assistant"));
                   (lit "content", VStr t) ]) ].

(** The body [/api/generate] answers with for the text [t]. *)
Definition generate_body (t : str) : value :=
  VDict [ (lit "response", VStr t) ].

Definition start (script : list (option value)) : world (list (option value)) :=
  {| gen := script; sent := [] |}.

(** A converter that rewrites the characters of [SIMPLIFIED_CHARS] as the
    [s2t] table does and keeps every other character. *)
Definition s2t_table : list (N * N) :=
  combine SIMPLIFIED_CHARS (lit "後發為億僅厲壓媽屬層廠廣慶錄覺").

Fixpoint s2t_char (table : list (N * N)) (c : N) : N :=
  match table with
  | [] => c
  | (a, b) :: table' => if (a =? c)%N then b else s2t_char table' c
  end.

Definition sample_s2t : Normalizer :=
  {| cc_convert := map (s2t_char s2t_table) |}.

(** A knowledge base with the three keywords of [SYNONYMS]. *)
Definition belly_ache : AdviceRecord :=
  {| possible_causes := Some [lit "吃太快"; lit "著涼"];
     self_care := Some [lit "喝溫水"; lit "熱敷肚子"];
     when_to_see_doctor := Some [lit "痛到睡不著"];
     encouragement := Some (lit "慢慢來，會好的。") |}.

Definition loose_bowels : AdviceRecord :=
  {| possible_causes := Some [lit "吃壞肚子"];
     self_care := Some [lit "補充水分"];
     when_to_see_doctor := None;
     encouragement := None |}.

Definition dizzy : AdviceRecord :=
  {| possible_causes := None;
     self_care := Some [];
     when_to_see_doctor := Some [lit "站不穩"];
     encouragement := None |}.

Definition sample_db : list (str * AdviceRecord) :=
  [ (lit "肚子痛", belly_ache); (lit "拉肚子", loose_bowels);
    (lit "頭暈", dizzy) ].

(** A record whose text has a character of [SIMPLIFIED_CHARS]. *)
Definition fever : AdviceRecord :=
  {| possible_causes := Some [lit "身體发炎"];
     self_care := None;
     when_to_see_doctor := None;
     encouragement := None |}.

(** A 60-character text in traditional script, and one with a danger
    word. *)
Definition clean60 : str :=
  lit "您好～頭痛可能是睡不好，或是水喝不夠。"
  ++ lit "請先多喝溫開水，好好休息一下，不用太擔心。"
  ++ lit "如果一直不舒服，再請家人陪您去看醫師喔。".

Definition danger60 : str :=
  lit "您好～頭痛可能是睡不好，也有人說是癌。"
  ++ lit "請先多喝溫開水，好好休息一下，不用太擔心。"
  ++ lit "如果一直不舒服，再請家人陪您去看醫師喔。".

End Samples.

Import Samples.

(* ================================================================= *)
(** ** Derived notions, used to state what the orchestration does *)

Section Derived.

Context {G : Type} {generator : Generator G} {normalizer : Normalizer}.

(** The world after one post, and the value [_post_request] returns for
    it. *)
Definition posted (w : world G) (url : str) (payload : value) : world G :=
  {| gen := snd (http_post url payload (gen w));
     sent := sent w ++ [(url, payload)] |}.

Definition response_of (w : world G) (url : str) (payload : value) : value :=
  match fst (http_post url payload (gen w)) with
  | Some v => v
  | None => VNone
  end.

(** [response.get("message", {}).get("content", "").strip()] *)
Definition cli_answer (response : value) : result str :=
  match response with
  | VDict items =>
    match dict_get items (lit "message") (VDict []) with
    | VDict message =>
      match dict_get message (lit "content") (VStr []) with
      | VStr s => Ok (strip s)
      | _ => Raise AttributeError
      end
    | _ => Raise AttributeError
    end
  | _ => Raise AttributeError
  end.

(** [response.get("response", "").strip()] *)
Definition web_answer (response : value) : result str :=
  match response with
  | VDict items =>
    match dict_get items (lit "response") (VStr []) with
    | VStr s => Ok (strip s)
    | _ => Raise AttributeError
    end
  | _ => Raise AttributeError
  end.

(** What [run_cli] and [run_web] both do after a miss of the lookup, for a
    wrapper [query] and the arguments [first] and [second] of its two
    calls. *)
Definition model_path (query : str -> bool -> M G str)
           (first second question : str) : M G shown :=
  reply <- query first false ;;
  reply <- (if negb (valid reply) then query second false else ret reply) ;;
  let reply := if negb (valid reply) then fallback_response question
               else reply in
  ret (FromModel (to_traditional reply)).

(** Every non-empty body the service answers with has the layout the
    wrapper reads with [answer]: [message.content] a string where present
    for [/api/chat], [response] a string where present for
    [/api/generate]. *)
Definition shaped_for (answer : value -> result str) : Prop :=
  forall url payload (g : G) v,
    fst (http_post url payload g) = Some v -> truthy v = true ->
    exists s, answer v = Ok s.

Definition cli_shaped : Prop := shaped_for cli_answer.

Definition web_shaped : Prop := shaped_for web_answer.

(** Every post fails in transport. *)
Definition unreachable : Prop :=
  forall url payload (g : G), fst (http_post url payload g) = None.

(** The texts a wrapper can return. *)
Definition wrapper_text (t : str) : Prop :=
  t = SYSTEM_ERROR \/ t = APOLOGY
  \/ exists answer, valid answer = true /\ t = to_traditional answer.

End Derived.

(* ================================================================= *)
(** ** The properties of a front end stated below *)

Section Guarantees.

Context {G : Type} {generator : Generator G} {normalizer : Normalizer}.

(** The front end [turn], whose model path calls the wrapper [query] with
    [first] and then [second], run on [question] from the world [w]. *)
Variable turn : str -> M G shown.
Variable query : str -> bool -> M G str.
Variable shaped : Prop.
Variable db_reply : option str.
Variables first second question : str.
Variable w : world G.

(** The posts of one request: none on a hit of the knowledge base, one to
    four on a miss. *)
Definition posts_bounded : Prop :=
  exists r w' extra,
    turn question w = (r, w')
    /\ sent w' = sent w ++ extra
    /\ length extra <= 4
    /\ (truthy_reply db_reply = true -> extra = [])
    /\ (truthy_reply db_reply = false -> 1 <= length extra).

(** On a miss the reply is the normalized candidate, which is a text the
    validator accepts or the fallback template; no reply is produced only
    when a response has another layout than the wrapper reads. *)
Definition miss_normalized : Prop :=
  truthy_reply db_reply = false ->
  exists r w',
    turn question w = (r, w')
    /\ ((r = Raise AttributeError /\ ~ shaped)
        \/ exists c, r = Ok (FromModel (to_traditional c))
                     /\ (valid c = true \/ c = fallback_response question)).

(** On a hit the formatted record is shown as it is, and the world is
    untouched. *)
Definition hit_verbatim : Prop :=
  truthy_reply db_reply = true ->
  exists t, db_reply = Some t /\ turn question w = (Ok (FromDatabase t), w).

(** Whatever is shown on the model path is the normalized form of a
    candidate that is neither of the wrapper's error texts. *)
Definition no_error_text : Prop :=
  forall t w',
    turn question w = (Ok (FromModel t), w') ->
    exists c, t = to_traditional c
              /\ c <> SYSTEM_ERROR /\ c <> APOLOGY
              /\ (valid c = true \/ c = fallback_response question).

(** When the texts of both wrapper calls are rejected, the fallback
    template, normalized, is shown. *)
Definition rejected_twice_gives_fallback : Prop :=
  truthy_reply db_reply = false ->
  forall r1 w1 r2 w2,
    query first false w = (Ok r1, w1) -> valid r1 = false ->
    query second false w1 = (Ok r2, w2) -> valid r2 = false ->
    turn question w
    = (Ok (FromModel (to_traditional (fallback_response question))), w2).

(** When the service cannot be reached, two posts are made and the
    fallback template, normalized, is shown. *)
Definition unreachable_gives_fallback : Prop :=
  truthy_reply db_reply = false -> unreachable ->
  exists w',
    turn question w
    = (Ok (FromModel (to_traditional (fallback_response question))), w')
    /\ length (sent w') = length (sent w) + 2.

(** With responses of the expected layout a reply is always produced. *)
Definition always_replies : Prop :=
  shaped -> exists s w', turn question w = (Ok s, w').

End Guarantees.

(* ================================================================= *)
(** ** Further notions for the orchestration *)

Section MoreDerived.

Context {G : Type} {generator : Generator G} {normalizer : Normalizer}.

(** Every post is answered, with a body of the layout [answer] reads, by a
    text the validator rejects. *)
Definition always_rejected (answer : value -> result str) : Prop :=
  forall url payload (g : G),
  exists v a,
    fst (http_post url payload g) = Some v /\ truthy v = true
    /\ answer v = Ok a /\ valid a = false.

End MoreDerived.

(* ================================================================= *)
(** ** cli.py and app.py: the session *)

(** [str.lower]. *)
Class Casing : Type := {
  py_lower : str -> str
}.

(** How one pass of the loop of [run_cli] ends: with the warning for an
    empty question, the goodbye after "exit", the notice after an
    interrupt or the end of the input, or with a text shown.  It is the
    outcome of the pass, not the lines it prints: the banner, the
    headers, the progress messages and the separators are left out, so
    nothing can be read off it about how much is printed. *)
Inductive cli_output : Type :=
| Warned
| Goodbye
| Stopped
| Showed (s : shown).


Section Sessions.

Context {G : Type} {generator : Generator G} {normalizer : Normalizer}
        {casing : Casing}.

Variable medical_db : list (str * AdviceRecord).

(** The [while True] loop of [run_cli] over what [input()] gives, call
    after call: a line, or [None] when it raises [EOFError] or
    [KeyboardInterrupt]; at the end of the list the input is exhausted.
    The result is the outcome of each pass, in order, and the exception
    that ended the loop if one escaped a request. *)
Fixpoint run_cli_loop (inputs : list (option str)) (w : world G)
  : (list cli_output * option exn) * world G :=
  match inputs with
  | [] => (([Stopped], None), w)
  | None :: _ => (([Stopped], None), w)
  | Some line :: rest =>
    let question := strip line in
    if negb (truthy (VStr question)) then
      let '((outs, e), w') := run_cli_loop rest w in
      ((Warned :: outs, e), w')
    else if str_eqb (py_lower question) (lit "exit") then
      (([Goodbye], None), w)
    else
      match run_cli_turn medical_db question w with
      | (Ok s, w1) =>
        let '((outs, e), w') := run_cli_loop rest w1 in
        ((Showed s :: outs, e), w')
      | (Raise e, w1) => (([], Some e), w1)
      end
  end.




(** The requests of a session that reached the model path, counting the
    one an exception ended. *)
Definition model_requests (outs : list cli_output) (e : option exn) : nat :=
  length (filter (fun o => match o with
                           | Showed (FromModel _) => true
                           | _ => false
                           end) outs)
  + match e with Some _ => 1 | None => 0 end.

End Sessions.

Module MoreSamples.

(** A service that answers every post with the same body. *)
Definition parrot (body : value) : Generator unit :=
  {| http_post := fun _ _ g => (Some body, g) |}.

(** A converter that also rewrites a character the validator does not
    look for: U+6076 into U+60E1, as the [s2t] table does. *)
Definition s2t_wide : Normalizer :=
  {| cc_convert := map (s2t_char ((24694%N, 24801%N) :: s2t_table)) |}.

(** An answer of 60 characters that is accepted as it is and rejected once
    converted: its "恶化" becomes the danger word "惡化". *)
Definition worsening60 : str :=
  lit "您好～頭痛可能是睡不好，不會一直恶化。"
  ++ lit "請先多喝溫開水，好好休息一下，不用太擔心。"
  ++ lit "如果一直不舒服，再請家人陪您去看醫師喔。".

(** [str.lower] on texts whose only cased characters are ASCII
    letters. *)
Definition ascii_lower : Casing :=
  {| py_lower := map (fun c => if ((65 <=? c) && (c <=? 90))%N
                               then (c + 32)%N else c) |}.

End MoreSamples.

Import MoreSamples.

(* ================================================================= *)
(** ** Facts about substring containment and stripping *)

Section StringFacts.

Lemma str_eqb_nil_r (s : str) : str_eqb s [] = true <-> s = [].
Proof. destruct s; simpl; split; congruence. Qed.

Lemma startswith_refl_app (u b : str) : startswith u (u ++ b) = true.
Proof.
  induction u as [|x u IH]; simpl; [reflexivity|].
  now rewrite N.eqb_refl, IH.
Qed.

Lemma startswith_contains (w t : str) :
  startswith w t = true -> contains w t = true.
Proof.
  destruct t as [|y t]; simpl; intros H; [exact H|].
  now rewrite H.
Qed.

(** A word that has no occurrence of [c] cannot extend across a [c]. *)
Lemma startswith_sep (w a b : str) (c : N) :
  char_in c w = false ->
  startswith w (a ++ c :: b) = startswith w a.
Proof.
  revert a; induction w as [|x w IH]; intros a Hc; [now destruct a|].
  simpl in Hc. apply orb_false_iff in Hc as [Hx Hw].
  destruct a as [|y a]; simpl.
  - rewrite N.eqb_sym, Hx. reflexivity.
  - rewrite (IH a Hw). reflexivity.
Qed.

Lemma contains_sep (w a b : str) (c : N) :
  char_in c w = false ->
  contains w (a ++ c :: b) = contains w a || contains w b.
Proof.
  intros Hc. induction a as [|y a IH].
  - pose proof (startswith_sep w [] b c Hc) as H. cbn [app] in H.
    cbn [app contains]. now rewrite H.
  - change ((y :: a) ++ c :: b) with (y :: (a ++ c :: b)).
    cbn [contains]. rewrite IH.
    change (y :: a ++ c :: b) with ((y :: a) ++ c :: b).
    rewrite (startswith_sep w (y :: a) b c Hc).
    now rewrite orb_assoc.
Qed.

Lemma contains_app_mid (u a b : str) : contains u (a ++ u ++ b) = true.
Proof.
  induction a as [|y a IH].
  - rewrite app_nil_l. apply startswith_contains, startswith_refl_app.
  - cbn [app contains]. rewrite IH. apply orb_true_r.
Qed.

Lemma contains_join (w : str) (c : N) (lines : list str) :
  char_in c w = false -> lines <> [] ->
  contains w (join [c] lines) = existsb (contains w) lines.
Proof.
  intros Hc. induction lines as [|l ls IH]; intros Hne; [congruence|].
  destruct ls as [|l' ls].
  - simpl. now rewrite orb_false_r.
  - change (join [c] (l :: l' :: ls)) with (l ++ c :: join [c] (l' :: ls)).
    rewrite (contains_sep w l _ c Hc), IH by discriminate.
    reflexivity.
Qed.

Lemma lstrip_nonspace (c : N) (s : str) :
  isspace c = false -> lstrip (c :: s) = c :: s.
Proof. intros H; simpl; now rewrite H. Qed.

Lemma lstrip_length_ge (p q : str) (c : N) :
  isspace c = false -> length (lstrip (p ++ c :: q)) >= S (length q).
Proof.
  intros Hc. induction p as [|y p IH].
  - rewrite app_nil_l, (lstrip_nonspace _ _ Hc). simpl. lia.
  - cbn [app lstrip]. destruct (isspace y); [exact IH|].
    simpl. rewrite length_app. simpl. lia.
Qed.

Lemma rstrip_length_ge (a b : str) (c : N) :
  isspace c = false -> length (rstrip (a ++ c :: b)) >= S (length a).
Proof.
  intros Hc. unfold rstrip.
  rewrite length_rev, rev_app_distr. cbn [rev].
  rewrite <- app_assoc. cbn [app].
  pose proof (lstrip_length_ge (rev b) (rev a) c Hc) as H.
  rewrite length_rev in H. exact H.
Qed.

(** The stripped length of a text that starts with a non-space character
    is at least the position of any later non-space character. *)
Lemma strip_length_ge (c0 c : N) (a b : str) :
  isspace c0 = false -> isspace c = false ->
  length (strip (c0 :: a ++ c :: b)) >= S (S (length a)).
Proof.
  intros H0 Hc. unfold strip. rewrite (lstrip_nonspace _ _ H0).
  change (c0 :: a ++ c :: b) with ((c0 :: a) ++ c :: b).
  pose proof (rstrip_length_ge (c0 :: a) b c Hc) as H. simpl in H. simpl. lia.
Qed.

Lemma existsb_eq_on {A : Type} (f g : A -> bool) (l : list A) :
  (forall x, In x l -> f x = g x) -> existsb f l = existsb g l.
Proof.
  induction l as [|x l IH]; intros H; simpl; [reflexivity|].
  rewrite (H x (or_introl eq_refl)), IH; [reflexivity|].
  intros y Hy. apply H. now right.
Qed.

Lemma existsb_false_on {A : Type} (f : A -> bool) (l : list A) :
  existsb f l = false <-> forall x, In x l -> f x = false.
Proof.
  induction l as [|x l IH]; simpl.
  - split; [intros _ y []|reflexivity].
  - rewrite orb_false_iff, IH. split.
    + intros [Hx Hl] y [<-|Hy]; auto.
    + intros H; split; auto.
Qed.

End StringFacts.

(** Sanity checks of the decoder and of [strip]. *)

Example lit_ai : lit "癌" = [30284%N].
Proof. reflexivity. Qed.

Example lit_smile : lit "😊" = [128522%N].
Proof. reflexivity. Qed.

Example strip_ex : strip (lit "  a b
 ") = lit "a b".
Proof. reflexivity. Qed.

Example fallback_len : length (fallback_response []) = 100.
Proof. reflexivity. Qed.


(* ================================================================= *)
(** ** The validator *)

Lemma char_in_true_iff (c : N) (s : list N) : char_in c s = true <-> In c s.
Proof.
  unfold char_in. rewrite existsb_exists. split.
  - intros (d & Hd & He). apply N.eqb_eq in He. now subst.
  - intros H. exists c. split; [exact H|apply N.eqb_refl].
Qed.

Lemma simplified_free_iff (s : str) :
  contains_simplified_chinese s = false <->
  forall c, In c SIMPLIFIED_CHARS -> ~ In c s.
Proof.
  unfold contains_simplified_chinese. rewrite existsb_false_on. split.
  - intros H c Hc Hs. specialize (H c Hs).
    apply char_in_true_iff in Hc. congruence.
  - intros H c Hs. destruct (char_in c SIMPLIFIED_CHARS) eqn:E; [|reflexivity].
    apply char_in_true_iff in E. now destruct (H c E).
Qed.

Lemma simplified_app (a b : str) :
  contains_simplified_chinese (a ++ b) =
  contains_simplified_chinese a || contains_simplified_chinese b.
Proof. unfold contains_simplified_chinese. apply existsb_app. Qed.

(** The boolean of [is_valid_response] on a string, check by check. *)
Lemma valid_string_eq (s : str) (m : Z) :
  fst (is_valid_response (VStr s) m) =
  negb (str_eqb s [])
  && negb (existsb (fun w => contains w s) (DANGER_WORDS ++ NONSENSE_WORDS))
  && negb (contains_simplified_chinese s)
  && (m <=? Z.of_nat (length (strip s)))%Z.
Proof.
  unfold is_valid_response, truthy. rewrite negb_involutive.
  destruct (str_eqb s []); [reflexivity|].
  destruct (existsb _ (DANGER_WORDS ++ NONSENSE_WORDS)); [reflexivity|].
  destruct (contains_simplified_chinese s); [reflexivity|].
  rewrite Z.ltb_antisym.
  destruct (m <=? Z.of_nat (length (strip s)))%Z; reflexivity.
Qed.

Lemma valid_eq (s : str) :
  valid s =
  negb (str_eqb s []) && clean s && (50 <=? Z.of_nat (length (strip s)))%Z.
Proof.
  unfold valid, default_min_length, clean. rewrite valid_string_eq.
  now rewrite <- !andb_assoc.
Qed.

(** C4. [is_valid_response(text, minLength)] is true exactly when [text] is
    a non-empty string with no danger word, no nonsense word, no character
    of the simplified set, and a stripped length of at least [minLength].
    The empty string and "太短" are rejected, every 60-character text with
    "癌" in it is rejected, and the 60-character traditional-script text
    [clean60] is accepted. *)
Theorem is_valid_response_iff :
  (forall (text : value) (minLength : Z),
      fst (is_valid_response text minLength) = true <->
      exists s, text = VStr s /\ s <> []
        /\ (forall w, In w DANGER_WORDS -> contains w s = false)
        /\ (forall w, In w NONSENSE_WORDS -> contains w s = false)
        /\ (forall c, In c SIMPLIFIED_CHARS -> ~ In c s)
        /\ (minLength <= Z.of_nat (length (strip s)))%Z)
  /\ fst (is_valid_response (VStr []) 50) = false
  /\ fst (is_valid_response (VStr (lit "太短")) 50) = false
  /\ (forall s, length s = 60 -> contains (lit "癌") s = true ->
      fst (is_valid_response (VStr s) 50) = false)
  /\ length clean60 = 60
  /\ fst (is_valid_response (VStr clean60) 50) = true.
Proof.
  split; [|split; [|split; [|split; [|split]]]];
    try (vm_compute; reflexivity).
  - intros text m. split.
    + destruct text as [| | |s| |]; try (simpl; discriminate).
      rewrite valid_string_eq, !andb_true_iff, !negb_true_iff, existsb_app.
      rewrite orb_false_iff, !existsb_false_on, Z.leb_le.
      intros [[[Hne [Hd Hn]] Hs] Hlen].
      exists s. repeat split; auto.
      * intros ->. discriminate.
      * now apply simplified_free_iff.
    + intros (s & -> & Hne & Hd & Hn & Hs & Hlen).
      rewrite valid_string_eq, !andb_true_iff, !negb_true_iff, existsb_app.
      rewrite orb_false_iff, !existsb_false_on, Z.leb_le.
      repeat split; auto.
      * destruct s; [congruence|reflexivity].
      * now apply simplified_free_iff.
  - intros s _ Hs. rewrite valid_string_eq.
    assert (H : existsb (fun w => contains w s)
                        (DANGER_WORDS ++ NONSENSE_WORDS) = true).
    { apply existsb_exists. exists (lit "癌"). split; [|exact Hs].
      left. reflexivity. }
    rewrite H. simpl. now rewrite andb_false_r.
Qed.

Lemma is_valid_response_iff_witness :
  length danger60 = 60 /\ contains (lit "癌") danger60 = true
  /\ fst (is_valid_response (VStr danger60) 50) = false.
Proof.
  split; [reflexivity|split; [reflexivity|]].
  apply (proj1 (proj2 (proj2 (proj2 is_valid_response_iff))) danger60);
    reflexivity.
Defined.

(* ================================================================= *)
(** ** The fallback template *)

(** The template around the user's text: the head ends with the opening
    bracket, the tail starts with the closing one, and neither holds a
    banned word or character. *)
Lemma fallback_shape :
  exists hmid tmid : str,
    (forall u, fallback_response u =
               (24744%N :: hmid) ++ 12300%N :: u ++ 12301%N :: tmid ++ [128522%N])
    /\ length hmid + length tmid >= 48
    /\ forallb (fun w => negb (char_in 12300%N w) && negb (char_in 12301%N w)
                         && negb (contains w (24744%N :: hmid))
                         && negb (contains w (tmid ++ [128522%N])))
               (DANGER_WORDS ++ NONSENSE_WORDS) = true
    /\ contains_simplified_chinese (24744%N :: hmid) = false
    /\ contains_simplified_chinese (tmid ++ [128522%N]) = false.
Proof.
  exists (removelast (tl fallback_head)), (removelast (tl fallback_tail)).
  split; [|repeat split; vm_compute; (reflexivity || lia)].
  intros u. unfold fallback_response.
  replace fallback_head
    with ((24744%N :: removelast (tl fallback_head)) ++ [12300%N])
    by (vm_compute; reflexivity).
  replace fallback_tail
    with (12301%N :: removelast (tl fallback_tail) ++ [128522%N]) at 1
    by (vm_compute; reflexivity).
  rewrite <- app_assoc. reflexivity.
Qed.

Lemma fallback_clean (u : str) : clean (fallback_response u) = clean u.
Proof.
  destruct fallback_shape as (hmid & tmid & Hshape & _ & Hwords & Hsh & Hst).
  rewrite Hshape. unfold clean. f_equal; f_equal.
  - apply existsb_eq_on. intros w Hw.
    rewrite forallb_forall in Hwords. specialize (Hwords w Hw).
    rewrite !andb_true_iff, !negb_true_iff in Hwords.
    destruct Hwords as [[[Hl Hr] Hh] Ht].
    rewrite (contains_sep w _ _ 12300%N Hl), (contains_sep w _ _ 12301%N Hr).
    rewrite Hh, Ht. now rewrite orb_false_r.
  - change (12300%N :: u ++ 12301%N :: tmid ++ [128522%N])
      with ([12300%N] ++ u ++ [12301%N] ++ tmid ++ [128522%N]).
    rewrite (simplified_app (24744%N :: hmid)), (simplified_app [12300%N]),
      (simplified_app u), (simplified_app [12301%N]), Hsh, Hst.
    cbn. now rewrite orb_false_r.
Qed.

Lemma fallback_long (u : str) :
  length (strip (fallback_response u)) >= 50.
Proof.
  destruct fallback_shape as (hmid & tmid & Hshape & Hlen & _).
  rewrite Hshape.
  change ((24744%N :: hmid) ++ 12300%N :: u ++ 12301%N :: tmid ++ [128522%N])
    with (24744%N :: (hmid ++ 12300%N :: u ++ 12301%N :: tmid ++ [128522%N])).
  replace (hmid ++ 12300%N :: u ++ 12301%N :: tmid ++ [128522%N])
    with ((hmid ++ 12300%N :: u ++ 12301%N :: tmid) ++ 128522%N :: []).
  2:{ rewrite <- app_assoc. cbn [app]. rewrite <- app_assoc. reflexivity. }
  pose proof (strip_length_ge 24744%N 128522%N
                (hmid ++ 12300%N :: u ++ 12301%N :: tmid) []
                eq_refl eq_refl) as H.
  rewrite length_app in H. cbn [length] in H.
  rewrite length_app in H. cbn [length] in H. lia.
Qed.

Lemma fallback_valid (u : str) : valid (fallback_response u) = clean u.
Proof.
  rewrite valid_eq, fallback_clean.
  assert (Hne : str_eqb (fallback_response u) [] = false).
  { destruct fallback_shape as (hmid & tmid & Hshape & _).
    rewrite Hshape. reflexivity. }
  pose proof (fallback_long u) as Hlen.
  rewrite Hne. cbn [negb andb].
  replace (50 <=? Z.of_nat (length (strip (fallback_response u))))%Z
    with true by (symmetry; apply Z.leb_le; lia).
  apply andb_true_r.
Qed.

(** C1, as the code has it.  [fallback_response(userText)] always contains
    [userText]; the validator (minimum length 50) accepts it exactly when
    [userText] has no danger word, no nonsense word and no character of
    the simplified set. *)
Theorem fallback_response_valid_iff_clean (userText : str) :
  fst (is_valid_response (VStr (fallback_response userText)) 50)
  = negb (existsb (fun w => contains w userText)
                  (DANGER_WORDS ++ NONSENSE_WORDS))
    && negb (contains_simplified_chinese userText)
  /\ contains userText (fallback_response userText) = true.
Proof.
  split.
  - exact (fallback_valid userText).
  - apply contains_app_mid.
Qed.

(** C1 as stated fails: the template echoes a danger word of the input. *)
Lemma fallback_response_rejected :
  fst (is_valid_response (VStr (fallback_response (lit "癌"))) 50) = false.
Proof. vm_compute. reflexivity. Qed.

(* ================================================================= *)
(** ** The formatter *)

Lemma format_response_lines (r : AdviceRecord) :
  format_response r =
  join newline
    (section_lines (lit "1. 可能原因：") (get_or (possible_causes r) [])
     ++ section_lines (lit "2. 在家可以怎麼做：") (get_or (self_care r) [])
     ++ section_lines (lit "3. 什麼時候需要看醫生：")
                      (get_or (when_to_see_doctor r) [])
     ++ [lit "4. 鼓勵的話："]
     ++ [bullet ++ get_or (encouragement r) (lit "請多注意休息喔！")]).
Proof.
  unfold format_response. cbn [flat_map]. rewrite app_nil_r.
  now rewrite <- !app_assoc.
Qed.

Lemma section_lines_nonempty (title : str) (items : list str) :
  section_lines title items <> [].
Proof. unfold section_lines. discriminate. Qed.

(** A test on strings that reads a joined text line by line, skips the
    bullet, and fails on the fixed lines of the layout, sees in a formatted
    record exactly what it sees in the strings of the record. *)
Section FormatScan.

Variable p : str -> bool.

Hypothesis p_join :
  forall lines, lines <> [] -> p (join newline lines) = existsb p lines.

Hypothesis p_bullet : forall item, p (bullet ++ item) = p item.

Hypothesis p_layout :
  forallb (fun t => negb (p t))
          [ lit "1. 可能原因："; lit "2. 在家可以怎麼做：";
            lit "3. 什麼時候需要看醫生："; lit "4. 鼓勵的話：";
            lit "（暫無資料）" ] = true.

Lemma scan_section (title : str) (items : list str) :
  p title = false ->
  existsb p (section_lines title items) = existsb p items.
Proof.
  intros Ht. unfold section_lines. cbn [existsb]. rewrite Ht. cbn [orb].
  destruct items as [|i items].
  - cbn [existsb]. rewrite p_bullet, orb_false_r.
    pose proof p_layout as Hl.
    cbn [forallb] in Hl. rewrite !andb_true_iff in Hl.
    destruct Hl as (_ & _ & _ & _ & H & _).
    now apply negb_true_iff in H.
  - induction (i :: items) as [|x l IH]; [reflexivity|].
    cbn [map existsb]. now rewrite p_bullet, IH.
Qed.

Lemma scan_format (r : AdviceRecord) :
  p (format_response r) = existsb p (record_texts r).
Proof.
  pose proof p_layout as Hl.
  cbn [forallb] in Hl. rewrite !andb_true_iff, !negb_true_iff in Hl.
  destruct Hl as (H1 & H2 & H3 & H4 & _).
  rewrite format_response_lines, p_join.
  2:{ intros H. apply app_eq_nil in H as [H _].
      now apply section_lines_nonempty in H. }
  unfold record_texts.
  rewrite !existsb_app, !scan_section by assumption.
  cbn [existsb]. now rewrite H4, p_bullet.
Qed.

End FormatScan.

Lemma simplified_join (lines : list str) :
  lines <> [] ->
  contains_simplified_chinese (join newline lines)
  = existsb contains_simplified_chinese lines.
Proof.
  induction lines as [|l ls IH]; intros Hne; [congruence|].
  destruct ls as [|l' ls].
  - simpl. now rewrite orb_false_r.
  - change (join newline (l :: l' :: ls))
      with (l ++ newline ++ join newline (l' :: ls)).
    rewrite !simplified_app, IH by discriminate. reflexivity.
Qed.

Lemma words_checked (w : str) :
  In w (DANGER_WORDS ++ NONSENSE_WORDS) ->
  char_in 10%N w = false /\ char_in 32%N w = false
  /\ contains w (lit "   -") = false
  /\ forallb (fun t => negb (contains w t))
             [ lit "1. 可能原因："; lit "2. 在家可以怎麼做：";
               lit "3. 什麼時候需要看醫生："; lit "4. 鼓勵的話：";
               lit "（暫無資料）" ] = true.
Proof.
  assert (H : forallb (fun w =>
             negb (char_in 10%N w) && negb (char_in 32%N w)
             && negb (contains w (lit "   -"))
             && forallb (fun t => negb (contains w t))
                  [ lit "1. 可能原因："; lit "2. 在家可以怎麼做：";
                    lit "3. 什麼時候需要看醫生："; lit "4. 鼓勵的話：";
                    lit "（暫無資料）" ])
            (DANGER_WORDS ++ NONSENSE_WORDS) = true)
    by (vm_compute; reflexivity).
  intros Hw. rewrite forallb_forall in H. specialize (H w Hw).
  rewrite !andb_true_iff, !negb_true_iff in H. tauto.
Qed.

Lemma word_in_format (w : str) (r : AdviceRecord) :
  In w (DANGER_WORDS ++ NONSENSE_WORDS) ->
  contains w (format_response r) = existsb (contains w) (record_texts r).
Proof.
  intros Hw. destruct (@words_checked w Hw) as (Hnl & Hsp & Hdash & Hlay).
  apply scan_format.
  - intros lines Hne. now apply contains_join.
  - intros item.
    change (bullet ++ item) with (lit "   -" ++ 32%N :: item).
    now rewrite (contains_sep w _ _ 32%N Hsp), Hdash.
  - exact Hlay.
Qed.

Lemma simplified_in_format (r : AdviceRecord) :
  contains_simplified_chinese (format_response r)
  = existsb contains_simplified_chinese (record_texts r).
Proof.
  apply scan_format.
  - exact simplified_join.
  - intros item. now rewrite simplified_app.
  - vm_compute. reflexivity.
Qed.

Lemma existsb_orb {A : Type} (f g : A -> bool) (l : list A) :
  existsb (fun x => f x || g x) l = existsb f l || existsb g l.
Proof.
  induction l as [|x l IH]; simpl; [reflexivity|].
  rewrite IH. destruct (f x), (g x), (existsb f l); reflexivity.
Qed.

Lemma forallb_clean (l : list str) :
  forallb clean l =
  negb (existsb (fun w => existsb (contains w) l)
                (DANGER_WORDS ++ NONSENSE_WORDS))
  && negb (existsb contains_simplified_chinese l).
Proof.
  induction l as [|t l IH].
  - cbn [forallb existsb].
    replace (existsb (fun _ : str => false) (DANGER_WORDS ++ NONSENSE_WORDS))
      with false; [reflexivity|].
    symmetry. apply existsb_false_on. reflexivity.
  - cbn [forallb existsb]. rewrite IH, existsb_orb. unfold clean.
    destruct (existsb (fun w => contains w t) _), (contains_simplified_chinese t),
      (existsb (fun w => existsb (contains w) l) _); reflexivity.
Qed.

Lemma format_clean (r : AdviceRecord) :
  clean (format_response r) = forallb clean (record_texts r).
Proof.
  rewrite forallb_clean. unfold clean at 1.
  rewrite simplified_in_format. f_equal. f_equal.
  apply existsb_eq_on. intros w Hw. now apply word_in_format.
Qed.

Lemma join_cons (sep l : str) (ls : list str) :
  ls <> [] -> join sep (l :: ls) = l ++ sep ++ join sep ls.
Proof. destruct ls; [congruence|reflexivity]. Qed.

Lemma join_snoc (sep l : str) (ls : list str) :
  ls <> [] -> join sep (ls ++ [l]) = join sep ls ++ sep ++ l.
Proof.
  induction ls as [|x ls IH]; intros Hne; [congruence|].
  destruct ls as [|y ls]; [reflexivity|].
  change ((x :: y :: ls) ++ [l]) with (x :: ((y :: ls) ++ [l])).
  rewrite join_cons by (destruct ls; discriminate).
  rewrite IH by discriminate.
  rewrite (join_cons sep x (ls := y :: ls)) by discriminate.
  now rewrite <- !app_assoc.
Qed.

(** The length of a joined text, counting one separator per line. *)
Lemma join_weight (sep : str) (ls : list str) :
  ls <> [] ->
  length (join sep ls) + length sep
  = list_sum (map (fun l => length l + length sep) ls).
Proof.
  induction ls as [|x ls IH]; intros Hne; [congruence|].
  destruct ls as [|y ls].
  - simpl. lia.
  - rewrite join_cons by discriminate.
    assert (Hne' : y :: ls <> []) by discriminate.
    specialize (IH Hne'). remember (y :: ls) as rest.
    simpl. rewrite <- IH, !length_app. lia.
Qed.

Lemma section_weight (title : str) (items : list str) :
  exists body, section_lines title items = title :: body /\ body <> []
    /\ list_sum (map (fun l => length l + 1) body) >= 1.
Proof.
  unfold section_lines. eexists. split; [reflexivity|].
  destruct items as [|i items]; split; try discriminate; simpl; lia.
Qed.

Lemma format_long (r : AdviceRecord) :
  length (strip (format_response r)) >= 50.
Proof.
  rewrite format_response_lines.
  destruct (section_weight (lit "1. 可能原因：") (get_or (possible_causes r) []))
    as (b1 & -> & Hb1 & Hw1).
  destruct (section_weight (lit "2. 在家可以怎麼做：") (get_or (self_care r) []))
    as (b2 & -> & _ & Hw2).
  destruct (section_weight (lit "3. 什麼時候需要看醫生：")
                           (get_or (when_to_see_doctor r) []))
    as (b3 & -> & _ & Hw3).
  set (enc := get_or (encouragement r) (lit "請多注意休息喔！")).
  set (t2 := lit "2. 在家可以怎麼做：") in *.
  set (t3 := lit "3. 什麼時候需要看醫生：") in *.
  set (t4 := lit "4. 鼓勵的話：") in *.
  set (rest := b1 ++ (t2 :: b2) ++ (t3 :: b3) ++ [t4]).
  assert (Hrest : rest <> []) by (subst rest; destruct b1; [congruence|discriminate]).
  replace ((lit "1. 可能原因：" :: b1) ++ (t2 :: b2) ++ (t3 :: b3)
           ++ [t4] ++ [bullet ++ enc])
    with ((lit "1. 可能原因：" :: rest) ++ [bullet ++ enc]).
  2:{ subst rest. simpl. f_equal.
      repeat (rewrite <- app_assoc; simpl). reflexivity. }
  rewrite join_snoc by discriminate.
  rewrite join_cons by exact Hrest.
  pose proof (join_weight newline Hrest) as Hw.
  assert (Hsum : list_sum (map (fun l => length l + length newline) rest) >= 38).
  { subst rest. change (length newline) with 1.
    rewrite !map_app, !list_sum_app. cbn [map list_sum].
    change (length t2) with 11. change (length t3) with 13.
    change (length t4) with 8.
    unfold list_sum, str in *. cbn [fold_right]. lia. }
  change (length newline) with 1 in Hw, Hsum.
  replace (lit "1. 可能原因：") with (49%N :: lit ". 可能原因：") at 1.
  2:{ vm_compute. reflexivity. }
  change (bullet ++ enc) with (lit "   " ++ 45%N :: 32%N :: enc).
  match goal with
  | |- context [strip ?t] =>
    replace t with
      (49%N :: (lit ". 可能原因：" ++ newline ++ join newline rest
                ++ newline ++ lit "   ") ++ 45%N :: 32%N :: enc)
  end.
  2:{ cbn [app]. now rewrite <- !app_assoc. }
  match goal with
  | |- context [strip (_ :: ?a ++ _ :: ?b)] =>
    pose proof (strip_length_ge 49%N 45%N a b eq_refl eq_refl) as H
  end.
  rewrite !length_app in H.
  change (length (lit ". 可能原因：")) with 7 in H.
  change (length newline) with 1 in H.
  change (length (lit "   ")) with 3 in H.
  lia.
Qed.

Lemma format_nonempty (r : AdviceRecord) :
  str_eqb (format_response r) [] = false.
Proof.
  pose proof (format_long r) as H.
  destruct (format_response r); [|reflexivity].
  vm_compute in H. lia.
Qed.

Lemma format_valid (r : AdviceRecord) :
  valid (format_response r) = forallb clean (record_texts r).
Proof.
  rewrite valid_eq, format_clean, format_nonempty.
  pose proof (format_long r) as Hlen.
  replace (50 <=? Z.of_nat (length (strip (format_response r))))%Z
    with true by (symmetry; apply Z.leb_le; lia).
  now rewrite andb_true_r.
Qed.

(** C5, as the code has it.  The formatter copies the strings of the record
    into its output untouched; the formatted text of a record is accepted
    by the validator (minimum length 50) exactly when each of these strings
    (the items of the three lists and the encouragement, or its default)
    has no danger word, no nonsense word and no character of the
    simplified set.  The layout alone is always long enough. *)
Theorem format_response_valid_iff_clean (record : AdviceRecord) :
  fst (is_valid_response (VStr (format_response record)) 50)
  = forallb (fun t =>
      negb (existsb (fun w => contains w t) (DANGER_WORDS ++ NONSENSE_WORDS))
      && negb (contains_simplified_chinese t))
    (record_texts record)
  /\ length (strip (format_response record)) >= 50.
Proof.
  split.
  - exact (format_valid record).
  - apply format_long.
Qed.

(** C5 as stated fails: a record that names a danger word is formatted
    into a text the validator rejects. *)
Lemma format_response_rejected :
  fst (is_valid_response
         (VStr (format_response
                  {| possible_causes := Some [lit "癌"];
                     self_care := Some [];
                     when_to_see_doctor := Some [];
                     encouragement := None |})) 50) = false.
Proof. vm_compute. reflexivity. Qed.

(* ================================================================= *)
(** ** The knowledge-base lookup *)

Lemma key_matches_iff (key text : str) :
  key_matches key text = true <-> keyword_occurs key text.
Proof.
  unfold key_matches, keyword_occurs. cbn [existsb].
  rewrite orb_true_iff, existsb_exists. reflexivity.
Qed.

Lemma key_matches_false_iff (key text : str) :
  key_matches key text = false <-> ~ keyword_occurs key text.
Proof.
  rewrite <- key_matches_iff. destruct (key_matches key text); split;
    congruence.
Qed.

Lemma contains_nil_r (w : str) : contains w [] = true -> w = [].
Proof. destruct w; simpl; congruence. Qed.

Lemma synonyms_nonempty (key syn : str) :
  In syn (dict_get SYNONYMS key []) -> syn <> [].
Proof.
  intros H ->. unfold SYNONYMS in H. cbn [dict_get] in H.
  repeat match type of H with
         | context [if str_eqb ?a key then _ else _] =>
           destruct (str_eqb a key)
         end;
    vm_compute in H; intuition discriminate.
Qed.

(** The loop returns at the first entry whose keyword matches. *)
Lemma scan_db_first (pre post : list (str * AdviceRecord))
      (key : str) (entry : AdviceRecord) (text : str) :
  (forall k e, In (k, e) pre -> key_matches k text = false) ->
  key_matches key text = true ->
  scan_db (pre ++ (key, entry) :: post) text = Some (format_response entry).
Proof.
  intros Hpre Hkey. induction pre as [|[k e] pre IH]; cbn [app scan_db].
  - now rewrite Hkey.
  - rewrite (Hpre k e (or_introl eq_refl)). apply IH.
    intros k' e' Hin. apply (Hpre k' e'). now right.
Qed.

Lemma scan_db_none (db : list (str * AdviceRecord)) (text : str) :
  (forall k e, In (k, e) db -> key_matches k text = false) ->
  scan_db db text = None.
Proof.
  intros H. induction db as [|[k e] db IH]; cbn [scan_db]; [reflexivity|].
  rewrite (H k e (or_introl eq_refl)). apply IH.
  intros k' e' Hin. apply (H k' e'). now right.
Qed.

Lemma lookup_nonempty (db : list (str * AdviceRecord)) (s : str) :
  s <> [] -> lookup_medical_db db (Some s) = scan_db db (strip s).
Proof.
  intros Hne. unfold lookup_medical_db, truthy.
  destruct s; [congruence|reflexivity].
Qed.

(** C6, as the code has it.  [lookup_medical_db] returns [None] for [None]
    and for the empty string.  For a non-empty [userText] it returns the
    formatted record of the first keyword, in the iteration order of the
    knowledge base, such that the keyword or one of its synonyms is a
    substring of the stripped [userText], and [None] when there is no such
    keyword.  For a blank [userText] this is [None] when no keyword of the
    knowledge base is the empty string. *)
Theorem lookup_medical_db_first_match (medical_db : list (str * AdviceRecord)) :
  lookup_medical_db medical_db None = None
  /\ lookup_medical_db medical_db (Some []) = None
  /\ (forall userText pre key entry post,
         userText <> [] ->
         medical_db = pre ++ (key, entry) :: post ->
         (forall k e, In (k, e) pre -> ~ keyword_occurs k (strip userText)) ->
         keyword_occurs key (strip userText) ->
         lookup_medical_db medical_db (Some userText)
         = Some (format_response entry))
  /\ (forall userText,
         (forall k e, In (k, e) medical_db ->
                      ~ keyword_occurs k (strip userText)) ->
         lookup_medical_db medical_db (Some userText) = None)
  /\ (forall userText,
         strip userText = [] ->
         (forall k e, In (k, e) medical_db -> k <> []) ->
         lookup_medical_db medical_db (Some userText) = None).
Proof.
  assert (Hnone : forall userText,
             (forall k e, In (k, e) medical_db ->
                          ~ keyword_occurs k (strip userText)) ->
             lookup_medical_db medical_db (Some userText) = None).
  { intros s H. destruct s as [|c s]; [reflexivity|].
    rewrite lookup_nonempty by discriminate. apply scan_db_none.
    intros k e Hin. apply key_matches_false_iff. eauto. }
  repeat split; try reflexivity.
  - intros s pre key entry post Hne -> Hpre Hkey.
    rewrite lookup_nonempty by exact Hne. apply scan_db_first.
    + intros k e Hin. apply key_matches_false_iff. eauto.
    + now apply key_matches_iff.
  - exact Hnone.
  - intros s Hblank Hkeys. apply Hnone. intros k e Hin. rewrite Hblank.
    intros [Hk|(syn & Hsyn & Hc)].
    + apply contains_nil_r in Hk. exact (Hkeys k e Hin Hk).
    + apply contains_nil_r in Hc. exact (synonyms_nonempty k Hsyn Hc).
Qed.

Lemma lookup_medical_db_first_match_witness :
  lookup_medical_db sample_db (Some (lit " 常常眼花，又拉肚子 "))
  = Some (format_response loose_bowels)
  /\ lookup_medical_db sample_db (Some (lit "   ")) = None.
Proof.
  destruct (lookup_medical_db_first_match sample_db)
    as (_ & _ & Hfirst & _ & Hblank).
  split.
  - apply (Hfirst (lit " 常常眼花，又拉肚子 ")
                  [(lit "肚子痛", belly_ache)] (lit "拉肚子") loose_bowels
                  [(lit "頭暈", dizzy)]).
    + discriminate.
    + reflexivity.
    + intros k e [Heq|[]]. injection Heq as <- <-.
      apply key_matches_false_iff. vm_compute. reflexivity.
    + apply key_matches_iff. vm_compute. reflexivity.
  - apply Hblank.
    + vm_compute. reflexivity.
    + intros k e Hin Hk. subst k. vm_compute in Hin.
      intuition discriminate.
Defined.

(** C6 as stated fails for a blank text when the knowledge base has an
    empty keyword: the empty string occurs in the stripped text. *)
Lemma lookup_medical_db_blank_hit :
  strip (lit " ") = []
  /\ lookup_medical_db [([], dizzy)] (Some (lit " "))
     = Some (format_response dizzy).
Proof. split; vm_compute; reflexivity. Qed.

(** C7.  In a knowledge base that lists "肚子痛" before "拉肚子", with no
    earlier keyword matching the two texts, "我肚子痛又拉肚子" gets the
    record of "肚子痛" although "拉肚子" occurs in it too, and
    "腹瀉很嚴重" gets the record of "拉肚子", which it does not contain,
    through the synonym "腹瀉". *)
Theorem lookup_medical_db_examples
        (medical_db pre mid post : list (str * AdviceRecord))
        (e1 e2 : AdviceRecord) :
  medical_db = pre ++ (lit "肚子痛", e1) :: mid ++ (lit "拉肚子", e2) :: post ->
  (forall k e, In (k, e) pre ->
               ~ keyword_occurs k (lit "我肚子痛又拉肚子")) ->
  (forall k e, In (k, e) (pre ++ mid) ->
               ~ keyword_occurs k (lit "腹瀉很嚴重")) ->
  lookup_medical_db medical_db (Some (lit "我肚子痛又拉肚子"))
  = Some (format_response e1)
  /\ contains (lit "肚子痛") (lit "我肚子痛又拉肚子") = true
  /\ contains (lit "拉肚子") (lit "我肚子痛又拉肚子") = true
  /\ lookup_medical_db medical_db (Some (lit "腹瀉很嚴重"))
     = Some (format_response e2)
  /\ contains (lit "拉肚子") (lit "腹瀉很嚴重") = false
  /\ In (lit "腹瀉") (dict_get SYNONYMS (lit "拉肚子") [])
  /\ contains (lit "腹瀉") (lit "腹瀉很嚴重") = true.
Proof.
  intros -> Hpre Hmid.
  repeat split; try (vm_compute; reflexivity).
  - rewrite lookup_nonempty by discriminate.
    replace (strip (lit "我肚子痛又拉肚子")) with (lit "我肚子痛又拉肚子")
      by (vm_compute; reflexivity).
    apply scan_db_first.
    + intros k e Hin. apply key_matches_false_iff. eauto.
    + vm_compute. reflexivity.
  - rewrite lookup_nonempty by discriminate.
    replace (strip (lit "腹瀉很嚴重")) with (lit "腹瀉很嚴重")
      by (vm_compute; reflexivity).
    change (pre ++ (lit "肚子痛", e1) :: mid ++ (lit "拉肚子", e2) :: post)
      with (pre ++ ((lit "肚子痛", e1) :: mid) ++ (lit "拉肚子", e2) :: post).
    rewrite app_assoc. apply scan_db_first.
    + intros k e Hin. apply in_app_or in Hin as [Hin|[Heq|Hin]].
      * apply key_matches_false_iff. apply (Hmid k e).
        apply in_or_app. now left.
      * injection Heq as <- <-. vm_compute. reflexivity.
      * apply key_matches_false_iff. apply (Hmid k e).
        apply in_or_app. now right.
    + vm_compute. reflexivity.
  - left. reflexivity.
Qed.

Lemma lookup_medical_db_examples_witness :
  lookup_medical_db sample_db (Some (lit "我肚子痛又拉肚子"))
  = Some (format_response belly_ache)
  /\ lookup_medical_db sample_db (Some (lit "腹瀉很嚴重"))
     = Some (format_response loose_bowels).
Proof.
  assert (Hno : forall (t : str) (k : str) (e : AdviceRecord),
             In (k, e) (@nil (str * AdviceRecord)) -> ~ keyword_occurs k t)
    by (intros t k e []).
  destruct (@lookup_medical_db_examples sample_db [] [] [(lit "頭暈", dizzy)]
              belly_ache loose_bowels eq_refl (Hno _) (Hno _))
    as (H1 & _ & _ & H2 & _).
  split; assumption.
Defined.

(* ================================================================= *)
(** ** The verdict and the boolean *)

(** C9, as the code has it.  [is_valid_response] returns a bare boolean
    and logs at most one warning.  Both are determined by the verdict of
    the specification's validator, whose checks it evaluates in the same
    short-circuit order, but they say less: the boolean is true exactly on
    [Accepted]; nothing is logged for an empty or non-text value; an unsafe
    term and a nonsense term log the same warning. *)
Theorem is_valid_response_coarsens_verdict (text : value) (minLength : Z) :
  is_valid_response text minLength
  = (verdict_bool (spec_validate text minLength),
     verdict_log (spec_validate text minLength)).
Proof.
  destruct text as [| | |s| |]; try reflexivity.
  unfold is_valid_response, spec_validate, truthy, contains_simplified_chinese.
  rewrite negb_involutive, existsb_app.
  destruct (str_eqb s []); [reflexivity|].
  destruct (existsb _ DANGER_WORDS); [reflexivity|].
  destruct (existsb _ NONSENSE_WORDS); [reflexivity|].
  cbn [orb].
  destruct (existsb _ s); [reflexivity|].
  destruct (Z.of_nat (length (strip s)) <? minLength)%Z; reflexivity.
Qed.

(** C9 as stated fails: the result of [is_valid_response] is the same for
    texts the specification rejects for different reasons, in the boolean
    for the empty and the short text, and in the boolean and the log for
    the unsafe and the nonsense term. *)
Lemma is_valid_response_drops_reason :
  (fst (is_valid_response (VStr []) 50)
   = fst (is_valid_response (VStr (lit "太短")) 50)
   /\ spec_validate (VStr []) 50 = Rejected empty_or_non_text
   /\ spec_validate (VStr (lit "太短")) 50 = Rejected too_short)
  /\ (is_valid_response (VStr (lit "癌")) 50
      = is_valid_response (VStr (lit "滴水")) 50
      /\ spec_validate (VStr (lit "癌")) 50 = Rejected contains_unsafe_term
      /\ spec_validate (VStr (lit "滴水")) 50
         = Rejected contains_nonsense_term).
Proof. repeat split; vm_compute; reflexivity. Qed.

(** No reading of the result of [is_valid_response] gives back the
    verdict. *)
Lemma no_verdict_from_result :
  ~ exists decode : bool * list log_record -> ValidationVerdict,
      forall text, decode (is_valid_response text 50) = spec_validate text 50.
Proof.
  intros (decode & H).
  pose proof (H (VStr (lit "癌"))) as H1.
  pose proof (H (VStr (lit "滴水"))) as H2.
  replace (is_valid_response (VStr (lit "滴水")) 50)
    with (is_valid_response (VStr (lit "癌")) 50) in H2
    by (vm_compute; reflexivity).
  rewrite H1 in H2. vm_compute in H2. discriminate.
Qed.

(* ================================================================= *)
(** ** Loading the knowledge base *)

Section LoadFacts.

Variable json_loads : str -> Store.json_outcome.

(** Where [load_medical_db] fails soft: no file, a file that cannot be
    read, and a decoded text that is not JSON all give the empty dict and
    one log record. *)
Lemma load_medical_db_soft :
  (exists msg, Store.load_medical_db json_loads Store.NoFile
               = (Ok (VDict []), [(WARNING, msg)]))
  /\ (forall err, exists msg,
         Store.load_medical_db json_loads (Store.Unreadable err)
         = (Ok (VDict []), [(ERROR, msg)]))
  /\ (forall content text err,
         utf8_decode content = Some text ->
         json_loads text = Store.JsonDecodeError err ->
         exists msg,
           Store.load_medical_db json_loads (Store.FileBytes content)
           = (Ok (VDict []), [(ERROR, msg)])).
Proof.
  repeat split.
  - eexists. reflexivity.
  - intros err. eexists. reflexivity.
  - intros content text err Hd Hj. eexists. cbn [Store.load_medical_db].
    rewrite Hd, Hj. reflexivity.
Qed.

(** C10 fails on a file whose bytes are not UTF-8 (here "{}" saved as
    UTF-16 with a byte order mark): [UnicodeDecodeError] is not among the
    caught exceptions, so [load_medical_db] raises to its caller, with
    nothing logged. *)
Theorem load_medical_db_raises_on_undecodable_bytes :
  Store.load_medical_db json_loads
    (Store.FileBytes [255; 254; 123; 0; 125; 0]%N)
  = (Raise UnicodeDecodeError, []).
Proof. reflexivity. Qed.

End LoadFacts.

(* ================================================================= *)
(** ** The generator wrappers *)

Section WrapperFacts.

Context {G : Type} {generator : Generator G} {normalizer : Normalizer}.

(** [query_ollama_cli] satisfies the recursive equation of the source:
    two levels of the recursion are all a call can reach. *)
Lemma query_ollama_cli_unfold (prompt : str) (use_fallback : bool) :
  query_ollama_cli prompt use_fallback
  = query_ollama_cli_body query_ollama_cli prompt use_fallback.
Proof. reflexivity. Qed.

Lemma query_ollama_web_unfold (user_input : str) (use_fallback : bool) :
  query_ollama_web user_input use_fallback
  = query_ollama_web_body query_ollama_web user_input use_fallback.
Proof. reflexivity. Qed.

(** More fuel changes nothing. *)
Lemma query_ollama_cli_fuel_enough (n : nat) (prompt : str) (uf : bool) :
  query_ollama_cli_fuel (2 + n) prompt uf = query_ollama_cli prompt uf.
Proof. destruct n; reflexivity. Qed.

Lemma query_ollama_web_fuel_enough (n : nat) (user_input : str) (uf : bool) :
  query_ollama_web_fuel (2 + n) user_input uf = query_ollama_web user_input uf.
Proof. destruct n; reflexivity. Qed.

Lemma post_request_eq (url : str) (payload : value) (w : world G) :
  _post_request url payload w
  = (Ok (response_of w url payload), posted w url payload).
Proof.
  unfold _post_request, response_of, posted.
  destruct (http_post url payload (gen w)) as [[v|] g']; reflexivity.
Qed.

(** One level of [query_ollama_cli], as a function of the posted request
    and of the answer read from the response. *)
Lemma query_ollama_cli_body_eq (self : str -> bool -> M G str)
      (prompt : str) (use_fallback : bool) (w : world G) :
  let v := response_of w OLLAMA_URL_CLI (cli_payload prompt) in
  let w1 := posted w OLLAMA_URL_CLI (cli_payload prompt) in
  query_ollama_cli_body self prompt use_fallback w
  = if truthy v then
      match cli_answer v with
      | Raise e => (Raise e, w1)
      | Ok answer =>
        if valid answer then (Ok (to_traditional answer), w1)
        else if use_fallback then (Ok APOLOGY, w1)
        else self (prompt ++ newline ++ newline ++ FALLBACK_HINT) true w1
      end
    else (Ok SYSTEM_ERROR, w1).
Proof.
  cbv zeta. unfold query_ollama_cli_body, bind. rewrite post_request_eq.
  destruct (truthy _) eqn:Ht; [|reflexivity].
  destruct (response_of _ _ _) as [| | | |l|items]; try reflexivity.
  cbn [py_get cli_answer ret].
  destruct (dict_get items _ _) as [| | | | |message]; try reflexivity.
  cbn [py_get ret].
  destruct (dict_get message _ _) as [| | |s| |]; try reflexivity.
  cbn [py_strip ret].
  destruct (valid (strip s)); [reflexivity|].
  destruct use_fallback; reflexivity.
Qed.

Lemma query_ollama_web_body_eq (self : str -> bool -> M G str)
      (user_input : str) (use_fallback : bool) (w : world G) :
  let payload := web_payload (build_web_prompt user_input) in
  let v := response_of w OLLAMA_URL_WEB payload in
  let w1 := posted w OLLAMA_URL_WEB payload in
  query_ollama_web_body self user_input use_fallback w
  = if truthy v then
      match web_answer v with
      | Raise e => (Raise e, w1)
      | Ok answer =>
        if valid answer then (Ok (to_traditional answer), w1)
        else if use_fallback then (Ok APOLOGY, w1)
        else self (user_input ++ lit "。" ++ FALLBACK_HINT) true w1
      end
    else (Ok SYSTEM_ERROR, w1).
Proof.
  cbv zeta. unfold query_ollama_web_body, bind. rewrite post_request_eq.
  destruct (truthy _) eqn:Ht; [|reflexivity].
  destruct (response_of _ _ _) as [| | | |l|items]; try reflexivity.
  cbn [py_get web_answer ret].
  destruct (dict_get items _ _) as [| | |s| |]; try reflexivity.
  cbn [py_strip ret].
  destruct (valid (strip s)); [reflexivity|].
  destruct use_fallback; reflexivity.
Qed.

Lemma error_strings_invalid : valid SYSTEM_ERROR = false /\ valid APOLOGY = false.
Proof. split; vm_compute; reflexivity. Qed.

Lemma sent_posted (w : world G) (url : str) (payload : value) :
  sent (posted w url payload) = sent w ++ [(url, payload)].
Proof. reflexivity. Qed.

Lemma truthy_response (w : world G) (url : str) (payload : value) :
  truthy (response_of w url payload) = true ->
  fst (http_post url payload (gen w)) = Some (response_of w url payload).
Proof.
  unfold response_of. destruct (fst (http_post url payload (gen w)));
    [reflexivity|discriminate].
Qed.

(** What is common to the two wrappers: the url, the payload built from
    the argument, the argument of the retry, and the reading of the
    answer. *)
Section OneWrapper.

Variable url : str.
Variable mk : str -> value.
Variable next : str -> str.
Variable answer : value -> result str.
Variable query : str -> bool -> M G str.

Hypothesis query_eq :
  forall arg use_fallback w,
    query arg use_fallback w
    = if truthy (response_of w url (mk arg)) then
        match answer (response_of w url (mk arg)) with
        | Raise e => (Raise e, posted w url (mk arg))
        | Ok a =>
          if valid a then (Ok (to_traditional a), posted w url (mk arg))
          else if use_fallback then (Ok APOLOGY, posted w url (mk arg))
          else query (next arg) true (posted w url (mk arg))
        end
      else (Ok SYSTEM_ERROR, posted w url (mk arg)).

Hypothesis answer_exn : forall v e, answer v = Raise e -> e = AttributeError.

Lemma wrapper_last_call (arg : str) (w : world G) :
  exists r,
    query arg true w = (r, posted w url (mk arg))
    /\ ((r = Raise AttributeError /\ ~ shaped_for answer)
        \/ exists t, r = Ok t /\ wrapper_text t).
Proof.
  rewrite query_eq.
  destruct (truthy _) eqn:Ht.
  - destruct (answer _) as [a|e] eqn:Ha.
    + destruct (valid a) eqn:Hv; eexists; (split; [reflexivity|right]);
        eexists; (split; [reflexivity|]); unfold wrapper_text; eauto.
    + eexists. split; [reflexivity|left].
      rewrite (answer_exn Ha). split; [reflexivity|]. intros Hs.
      destruct (Hs _ _ _ _ (truthy_response _ _ _ Ht) Ht) as (s & Hs').
      congruence.
  - eexists. split; [reflexivity|right].
    eexists. split; [reflexivity|]. unfold wrapper_text. eauto.
Qed.

(** One post, or two when the first answer is rejected and
    [use_fallback] is false, the second for the retry argument; the call
    returns one of the wrapper's texts, or raises on a body of another
    layout. *)
Lemma wrapper_outcome (arg : str) (use_fallback : bool) (w : world G) :
  exists r w' extra,
    query arg use_fallback w = (r, w')
    /\ sent w' = sent w ++ extra
    /\ (extra = [(url, mk arg)]
        \/ (use_fallback = false
            /\ extra = [(url, mk arg); (url, mk (next arg))]))
    /\ ((r = Raise AttributeError /\ ~ shaped_for answer)
        \/ exists t, r = Ok t /\ wrapper_text t).
Proof.
  destruct use_fallback.
  - destruct (wrapper_last_call arg w) as (r & Hq & Hr).
    exists r, (posted w url (mk arg)), [(url, mk arg)]. auto.
  - rewrite query_eq.
    destruct (truthy _) eqn:Ht.
    + destruct (answer _) as [a|e] eqn:Ha.
      * destruct (valid a) eqn:Hv.
        -- do 3 eexists. split; [reflexivity|split; [reflexivity|split]];
             [left; reflexivity|right].
           eexists. split; [reflexivity|]. unfold wrapper_text. eauto.
        -- destruct (wrapper_last_call (next arg) (posted w url (mk arg)))
             as (r & Hq & Hr).
           exists r. do 2 eexists. split; [exact Hq|].
           split; [|split; [right; split; reflexivity|exact Hr]].
           rewrite !sent_posted, <- app_assoc. reflexivity.
      * do 3 eexists. split; [reflexivity|split; [reflexivity|split]];
          [left; reflexivity|left].
        rewrite (answer_exn Ha). split; [reflexivity|]. intros Hs.
        destruct (Hs _ _ _ _ (truthy_response _ _ _ Ht) Ht) as (s & Hs').
        congruence.
    + do 3 eexists. split; [reflexivity|split; [reflexivity|split]];
        [left; reflexivity|right].
      eexists. split; [reflexivity|]. unfold wrapper_text. eauto.
Qed.

(** When the service cannot be reached the call posts once and returns the
    system-error text. *)
Lemma wrapper_unreachable (arg : str) (use_fallback : bool) (w : world G) :
  unreachable ->
  query arg use_fallback w = (Ok SYSTEM_ERROR, posted w url (mk arg)).
Proof.
  intros Hdown. rewrite query_eq.
  unfold response_of. now rewrite Hdown.
Qed.

End OneWrapper.

Lemma cli_answer_exn (v : value) (e : exn) :
  cli_answer v = Raise e -> e = AttributeError.
Proof.
  unfold cli_answer. intros H.
  repeat match type of H with
         | match ?x with _ => _ end = _ => destruct x
         end; congruence.
Qed.

Lemma web_answer_exn (v : value) (e : exn) :
  web_answer v = Raise e -> e = AttributeError.
Proof.
  unfold web_answer. intros H.
  repeat match type of H with
         | match ?x with _ => _ end = _ => destruct x
         end; congruence.
Qed.

Lemma query_ollama_cli_eq (prompt : str) (use_fallback : bool) (w : world G) :
  query_ollama_cli prompt use_fallback w
  = if truthy (response_of w OLLAMA_URL_CLI (cli_payload prompt)) then
      match cli_answer (response_of w OLLAMA_URL_CLI (cli_payload prompt)) with
      | Raise e => (Raise e, posted w OLLAMA_URL_CLI (cli_payload prompt))
      | Ok a =>
        if valid a
        then (Ok (to_traditional a),
              posted w OLLAMA_URL_CLI (cli_payload prompt))
        else if use_fallback
        then (Ok APOLOGY, posted w OLLAMA_URL_CLI (cli_payload prompt))
        else query_ollama_cli
               (prompt ++ newline ++ newline ++ FALLBACK_HINT) true
               (posted w OLLAMA_URL_CLI (cli_payload prompt))
      end
    else (Ok SYSTEM_ERROR, posted w OLLAMA_URL_CLI (cli_payload prompt)).
Proof.
  rewrite query_ollama_cli_unfold. apply query_ollama_cli_body_eq.
Qed.

Lemma query_ollama_web_eq (user_input : str) (use_fallback : bool)
      (w : world G) :
  query_ollama_web user_input use_fallback w
  = if truthy (response_of w OLLAMA_URL_WEB
                           (web_payload (build_web_prompt user_input))) then
      match web_answer (response_of w OLLAMA_URL_WEB
                          (web_payload (build_web_prompt user_input))) with
      | Raise e =>
        (Raise e,
         posted w OLLAMA_URL_WEB (web_payload (build_web_prompt user_input)))
      | Ok a =>
        if valid a
        then (Ok (to_traditional a),
              posted w OLLAMA_URL_WEB
                     (web_payload (build_web_prompt user_input)))
        else if use_fallback
        then (Ok APOLOGY,
              posted w OLLAMA_URL_WEB
                     (web_payload (build_web_prompt user_input)))
        else query_ollama_web
               (user_input ++ lit "。" ++ FALLBACK_HINT) true
               (posted w OLLAMA_URL_WEB
                       (web_payload (build_web_prompt user_input)))
      end
    else (Ok SYSTEM_ERROR,
          posted w OLLAMA_URL_WEB (web_payload (build_web_prompt user_input))).
Proof.
  rewrite query_ollama_web_unfold. apply query_ollama_web_body_eq.
Qed.

Lemma fallback_not_error (question : str) :
  fallback_response question <> SYSTEM_ERROR
  /\ fallback_response question <> APOLOGY.
Proof.
  assert (H : length (fallback_response question) >= 100).
  { unfold fallback_response. rewrite !length_app.
    change (length fallback_head) with 10.
    change (length fallback_tail) with 90. lia. }
  split; intros E; rewrite E in H; vm_compute in H; lia.
Qed.

(** The model path of a front end, over any wrapper that posts once or
    twice per call and returns one of the wrapper's texts. *)
Section ModelPath.

Variable query : str -> bool -> M G str.
Variable shaped : Prop.
Variables first second question : str.

Hypothesis query_outcome :
  forall arg w,
  exists r w' extra,
    query arg false w = (r, w')
    /\ sent w' = sent w ++ extra
    /\ 1 <= length extra <= 2
    /\ ((r = Raise AttributeError /\ ~ shaped)
        \/ exists t, r = Ok t /\ wrapper_text t).

Lemma model_path_rejected (w w1 w2 : world G) (r1 r2 : str) :
  query first false w = (Ok r1, w1) -> valid r1 = false ->
  query second false w1 = (Ok r2, w2) -> valid r2 = false ->
  model_path query first second question w
  = (Ok (FromModel (to_traditional (fallback_response question))), w2).
Proof.
  intros H1 Hv1 H2 Hv2. unfold model_path, bind.
  rewrite H1, Hv1. cbn [negb]. rewrite H2. unfold ret. now rewrite Hv2.
Qed.

Lemma model_path_outcome (w : world G) :
  exists r w' extra,
    model_path query first second question w = (r, w')
    /\ sent w' = sent w ++ extra
    /\ 1 <= length extra <= 4
    /\ ((r = Raise AttributeError /\ ~ shaped)
        \/ exists c, r = Ok (FromModel (to_traditional c))
                     /\ c <> SYSTEM_ERROR /\ c <> APOLOGY
                     /\ (valid c = true \/ c = fallback_response question)).
Proof.
  destruct error_strings_invalid as [Hsys Hapo].
  destruct (fallback_not_error question) as [Hfs Hfa].
  assert (Hv : forall c, valid c = true -> c <> SYSTEM_ERROR /\ c <> APOLOGY)
    by (intros c Hc; split; intros ->; congruence).
  unfold model_path, bind.
  destruct (query_outcome first w) as (r1 & w1 & x1 & H1 & Hs1 & Hl1 & Hr1).
  rewrite H1.
  destruct Hr1 as [[-> Hns]|(t1 & -> & Ht1)].
  { exists (Raise AttributeError), w1, x1.
    split; [reflexivity|split; [exact Hs1|split; [lia|left; auto]]]. }
  destruct (valid t1) eqn:Hv1; cbn [negb].
  { unfold ret. rewrite Hv1. cbn [negb].
    exists (Ok (FromModel (to_traditional t1))), w1, x1.
    split; [reflexivity|split; [exact Hs1|split; [lia|right]]].
    exists t1. destruct (Hv t1 Hv1). auto. }
  destruct (query_outcome second w1) as (r2 & w2 & x2 & H2 & Hs2 & Hl2 & Hr2).
  rewrite H2.
  destruct Hr2 as [[-> Hns]|(t2 & -> & Ht2)].
  { exists (Raise AttributeError), w2, (x1 ++ x2).
    split; [reflexivity|]. rewrite Hs2, Hs1, <- app_assoc, length_app.
    split; [reflexivity|split; [lia|left; auto]]. }
  eexists _, w2, (x1 ++ x2).
  split; [reflexivity|]. rewrite Hs2, Hs1, <- app_assoc, length_app.
  split; [reflexivity|split; [lia|right]].
  destruct (valid t2) eqn:Hv2; cbn [negb]; eexists;
    (split; [reflexivity|]).
  - destruct (Hv t2 Hv2). auto.
  - auto.
Qed.

End ModelPath.

(** The guarantees, for any front end that returns the formatted record on
    a hit and follows the model path on a miss. *)
Section FrontEndFacts.

Variable turn : str -> M G shown.
Variable query : str -> bool -> M G str.
Variable shaped : Prop.
Variable db_reply : option str.
Variables first second question : str.

Hypothesis turn_eq :
  forall w,
    turn question w
    = if truthy_reply db_reply
      then (Ok (FromDatabase (get_or db_reply [])), w)
      else model_path query first second question w.

Hypothesis query_outcome :
  forall arg w,
  exists r w' extra,
    query arg false w = (r, w')
    /\ sent w' = sent w ++ extra
    /\ 1 <= length extra <= 2
    /\ ((r = Raise AttributeError /\ ~ shaped)
        \/ exists t, r = Ok t /\ wrapper_text t).

Hypothesis query_down :
  unreachable ->
  forall arg w,
  exists w', query arg false w = (Ok SYSTEM_ERROR, w')
             /\ length (sent w') = length (sent w) + 1.

Lemma front_end_posts_bounded (w : world G) :
  posts_bounded turn db_reply question w.
Proof.
  unfold posts_bounded. rewrite turn_eq.
  case_eq (truthy_reply db_reply); intros E.
  - exists (Ok (FromDatabase (get_or db_reply []))), w, [].
    rewrite app_nil_r. cbn [length]. repeat split; try lia; discriminate.
  - destruct (@model_path_outcome query shaped first second question query_outcome w)
      as (r & w' & extra & Hm & Hs & Hl & _).
    exists r, w', extra. repeat split; try assumption; try lia;
      discriminate.
Qed.

Lemma front_end_miss_normalized (w : world G) :
  miss_normalized turn shaped db_reply question w.
Proof.
  intros Hmiss. rewrite turn_eq, Hmiss.
  destruct (@model_path_outcome query shaped first second question query_outcome w)
    as (r & w' & extra & Hm & _ & _ & Hr).
  exists r, w'. split; [exact Hm|].
  destruct Hr as [Hr|(c & Hc & _ & _ & Hv)]; [left; exact Hr|right; eauto].
Qed.

Lemma front_end_hit_verbatim (w : world G) :
  hit_verbatim turn db_reply question w.
Proof.
  intros Hhit. rewrite turn_eq, Hhit.
  destruct db_reply as [t|]; [|discriminate].
  exists t. split; reflexivity.
Qed.

Lemma front_end_no_error_text (w : world G) :
  no_error_text turn question w.
Proof.
  intros t w' Hturn. rewrite turn_eq in Hturn.
  revert Hturn. case_eq (truthy_reply db_reply); intros E Hturn;
    [discriminate|].
  destruct (@model_path_outcome query shaped first second question query_outcome w)
    as (r & w1 & extra & Hm & _ & _ & Hr).
  rewrite Hm in Hturn. injection Hturn as -> _.
  destruct Hr as [[Hr _]|(c & Hc & Hsys & Hapo & Hv)]; [discriminate|].
  injection Hc as ->. exists c. auto.
Qed.

Lemma front_end_rejected_twice (w : world G) :
  rejected_twice_gives_fallback turn query db_reply first second question w.
Proof.
  intros Hmiss r1 w1 r2 w2 H1 Hv1 H2 Hv2. rewrite turn_eq, Hmiss.
  now apply model_path_rejected with (w1 := w1) (r1 := r1) (r2 := r2).
Qed.

Lemma front_end_unreachable (w : world G) :
  unreachable_gives_fallback turn db_reply question w.
Proof.
  intros Hmiss Hdown. rewrite turn_eq, Hmiss.
  destruct (query_down Hdown first w) as (w1 & H1 & Hl1).
  destruct (query_down Hdown second w1) as (w2 & H2 & Hl2).
  destruct error_strings_invalid as [Hsys _].
  exists w2. split; [|lia].
  now apply model_path_rejected
    with (w1 := w1) (r1 := SYSTEM_ERROR) (r2 := SYSTEM_ERROR).
Qed.

Lemma front_end_always_replies (w : world G) :
  always_replies turn shaped question w.
Proof.
  intros Hshaped. rewrite turn_eq.
  case_eq (truthy_reply db_reply); intros E; [eauto|].
  destruct (@model_path_outcome query shaped first second question query_outcome w)
    as (r & w' & extra & Hm & _ & _ & Hr).
  rewrite Hm. destruct Hr as [[_ Hns]|(c & -> & _)]; [tauto|eauto].
Qed.

End FrontEndFacts.

(* ================================================================= *)
(** ** The two front ends *)

Variable medical_db : list (str * AdviceRecord).

Lemma query_ollama_cli_outcome (arg : str) (use_fallback : bool)
      (w : world G) :
  exists r w' extra,
    query_ollama_cli arg use_fallback w = (r, w')
    /\ sent w' = sent w ++ extra
    /\ (extra = [(OLLAMA_URL_CLI, cli_payload arg)]
        \/ (use_fallback = false
            /\ extra = [(OLLAMA_URL_CLI, cli_payload arg);
                        (OLLAMA_URL_CLI,
                         cli_payload (arg ++ newline ++ newline
                                          ++ FALLBACK_HINT))]))
    /\ ((r = Raise AttributeError /\ ~ cli_shaped)
        \/ exists t, r = Ok t /\ wrapper_text t).
Proof.
  exact (wrapper_outcome OLLAMA_URL_CLI cli_payload
           (fun p => p ++ newline ++ newline ++ FALLBACK_HINT)
           cli_answer query_ollama_cli
           query_ollama_cli_eq cli_answer_exn arg use_fallback w).
Qed.

Lemma query_ollama_web_outcome (arg : str) (use_fallback : bool)
      (w : world G) :
  exists r w' extra,
    query_ollama_web arg use_fallback w = (r, w')
    /\ sent w' = sent w ++ extra
    /\ (extra = [(OLLAMA_URL_WEB, web_payload (build_web_prompt arg))]
        \/ (use_fallback = false
            /\ extra = [(OLLAMA_URL_WEB, web_payload (build_web_prompt arg));
                        (OLLAMA_URL_WEB,
                         web_payload
                           (build_web_prompt
                              (arg ++ lit "。" ++ FALLBACK_HINT)))]))
    /\ ((r = Raise AttributeError /\ ~ web_shaped)
        \/ exists t, r = Ok t /\ wrapper_text t).
Proof.
  exact (wrapper_outcome OLLAMA_URL_WEB
           (fun u => web_payload (build_web_prompt u))
           (fun u => u ++ lit "。" ++ FALLBACK_HINT)
           web_answer query_ollama_web
           query_ollama_web_eq web_answer_exn arg use_fallback w).
Qed.

Lemma cli_outcome_counted (arg : str) (w : world G) :
  exists r w' extra,
    query_ollama_cli arg false w = (r, w')
    /\ sent w' = sent w ++ extra
    /\ 1 <= length extra <= 2
    /\ ((r = Raise AttributeError /\ ~ cli_shaped)
        \/ exists t, r = Ok t /\ wrapper_text t).
Proof.
  destruct (query_ollama_cli_outcome arg false w)
    as (r & w' & extra & Hq & Hs & He & Hr).
  exists r, w', extra. repeat split; try assumption;
    destruct He as [->|[_ ->]]; cbn [length]; lia.
Qed.

Lemma web_outcome_counted (arg : str) (w : world G) :
  exists r w' extra,
    query_ollama_web arg false w = (r, w')
    /\ sent w' = sent w ++ extra
    /\ 1 <= length extra <= 2
    /\ ((r = Raise AttributeError /\ ~ web_shaped)
        \/ exists t, r = Ok t /\ wrapper_text t).
Proof.
  destruct (query_ollama_web_outcome arg false w)
    as (r & w' & extra & Hq & Hs & He & Hr).
  exists r, w', extra. repeat split; try assumption;
    destruct He as [->|[_ ->]]; cbn [length]; lia.
Qed.

Lemma cli_down :
  unreachable ->
  forall arg (w : world G),
  exists w', query_ollama_cli arg false w = (Ok SYSTEM_ERROR, w')
             /\ length (sent w') = length (sent w) + 1.
Proof.
  intros Hdown arg w. eexists. split.
  - exact (wrapper_unreachable OLLAMA_URL_CLI cli_payload
             (fun p => p ++ newline ++ newline ++ FALLBACK_HINT)
             cli_answer query_ollama_cli
             query_ollama_cli_eq arg false w Hdown).
  - rewrite sent_posted, length_app. reflexivity.
Qed.

Lemma web_down :
  unreachable ->
  forall arg (w : world G),
  exists w', query_ollama_web arg false w = (Ok SYSTEM_ERROR, w')
             /\ length (sent w') = length (sent w) + 1.
Proof.
  intros Hdown arg w. eexists. split.
  - exact (wrapper_unreachable OLLAMA_URL_WEB
             (fun u => web_payload (build_web_prompt u))
             (fun u => u ++ lit "。" ++ FALLBACK_HINT)
             web_answer query_ollama_web
             query_ollama_web_eq arg false w Hdown).
  - rewrite sent_posted, length_app. reflexivity.
Qed.

Lemma run_cli_turn_eq (question : str) (w : world G) :
  run_cli_turn medical_db question w
  = if truthy_reply (lookup_medical_db medical_db (Some question))
    then (Ok (FromDatabase
                (get_or (lookup_medical_db medical_db (Some question)) [])), w)
    else model_path query_ollama_cli (build_cli_prompt question)
                    (build_cli_prompt question ++ newline ++ FALLBACK_HINT)
                    question w.
Proof.
  unfold run_cli_turn.
  destruct (truthy_reply (lookup_medical_db medical_db (Some question)));
    reflexivity.
Qed.

Lemma run_web_turn_eq (user_input : str) (w : world G) :
  run_web_turn medical_db user_input w
  = if truthy_reply (lookup_medical_db medical_db (Some user_input))
    then (Ok (FromDatabase
                (get_or (lookup_medical_db medical_db (Some user_input)) [])),
          w)
    else model_path query_ollama_web user_input
                    (user_input ++ newline ++ FALLBACK_HINT) user_input w.
Proof.
  unfold run_web_turn.
  destruct (truthy_reply (lookup_medical_db medical_db (Some user_input)));
    reflexivity.
Qed.

(** C2, as the code has it.  A request that hits the knowledge base posts
    nothing.  On a miss the front end calls the wrapper once, and once more
    when the text it got is rejected; each call of the wrapper posts once,
    and once more with the hint appended when the answer is rejected: one
    to four posts for a request, never a fifth, in [run_cli] and in
    [run_web]. *)
Theorem generator_posts_at_most_four (question : str) (w : world G) :
  posts_bounded (run_cli_turn medical_db)
                (lookup_medical_db medical_db (Some question)) question w
  /\ posts_bounded (run_web_turn medical_db)
                   (lookup_medical_db medical_db (Some question)) question w
  /\ (forall arg use_fallback,
         exists r w' extra,
           query_ollama_cli arg use_fallback w = (r, w')
           /\ sent w' = sent w ++ extra
           /\ (extra = [(OLLAMA_URL_CLI, cli_payload arg)]
               \/ (use_fallback = false
                   /\ extra = [(OLLAMA_URL_CLI, cli_payload arg);
                               (OLLAMA_URL_CLI,
                                cli_payload (arg ++ newline ++ newline
                                                 ++ FALLBACK_HINT))])))
  /\ (forall arg use_fallback,
         exists r w' extra,
           query_ollama_web arg use_fallback w = (r, w')
           /\ sent w' = sent w ++ extra
           /\ (extra = [(OLLAMA_URL_WEB, web_payload (build_web_prompt arg))]
               \/ (use_fallback = false
                   /\ extra
                      = [(OLLAMA_URL_WEB, web_payload (build_web_prompt arg));
                         (OLLAMA_URL_WEB,
                          web_payload
                            (build_web_prompt
                               (arg ++ lit "。" ++ FALLBACK_HINT)))]))).
Proof.
  split; [|split; [|split]].
  - eapply front_end_posts_bounded; [apply run_cli_turn_eq|apply cli_outcome_counted].
  - eapply front_end_posts_bounded; [apply run_web_turn_eq|apply web_outcome_counted].
  - intros arg uf.
    destruct (query_ollama_cli_outcome arg uf w)
      as (r & w' & extra & Hq & Hs & He & _).
    exists r, w', extra. auto.
  - intros arg uf.
    destruct (query_ollama_web_outcome arg uf w)
      as (r & w' & extra & Hq & Hs & He & _).
    exists r, w', extra. auto.
Qed.

(** C3, as the code has it.  On a miss of the knowledge base the text shown
    is [to_traditional] of the candidate, which is a text the validator
    accepts or the fallback template, so it is a fixed point of
    [to_traditional] when the converter is idempotent.  On a hit the
    formatted record is shown as it is: the normalizer is not called. *)
Theorem model_reply_normalized (question : str) (w : world G) :
  miss_normalized (run_cli_turn medical_db) cli_shaped
                  (lookup_medical_db medical_db (Some question)) question w
  /\ miss_normalized (run_web_turn medical_db) web_shaped
                     (lookup_medical_db medical_db (Some question)) question w
  /\ hit_verbatim (run_cli_turn medical_db)
                  (lookup_medical_db medical_db (Some question)) question w
  /\ hit_verbatim (run_web_turn medical_db)
                  (lookup_medical_db medical_db (Some question)) question w
  /\ ((forall x, cc_convert (cc_convert x) = cc_convert x) ->
      forall t w',
        run_cli_turn medical_db question w = (Ok (FromModel t), w')
        \/ run_web_turn medical_db question w = (Ok (FromModel t), w') ->
        to_traditional t = t).
Proof.
  split; [|split; [|split; [|split]]].
  - eapply front_end_miss_normalized; [apply run_cli_turn_eq|apply cli_outcome_counted].
  - eapply front_end_miss_normalized; [apply run_web_turn_eq|apply web_outcome_counted].
  - eapply front_end_hit_verbatim; [apply run_cli_turn_eq].
  - eapply front_end_hit_verbatim; [apply run_web_turn_eq].
  - intros Hidem t w' [H|H].
    + assert (Hn : no_error_text (run_cli_turn medical_db) question w)
        by (eapply front_end_no_error_text;
            [apply run_cli_turn_eq|apply cli_outcome_counted]).
      destruct (Hn t w' H) as (c & -> & _). apply Hidem.
    + assert (Hn : no_error_text (run_web_turn medical_db) question w)
        by (eapply front_end_no_error_text;
            [apply run_web_turn_eq|apply web_outcome_counted]).
      destruct (Hn t w' H) as (c & -> & _). apply Hidem.
Qed.

(** What the front ends keep of the guarantee on error texts, on the runs
    that end in a reply.  The two texts the wrappers return on failure are
    rejected by the validator, so the front end never shows them: what it
    shows on the model path is the normalized form of a candidate that is
    neither of them, a text the validator accepts or the fallback
    template.  When the texts of both wrapper calls are rejected, and so
    when the service cannot be reached, the reply is exactly the
    normalized fallback template.  With responses of the layout the
    wrapper reads, a reply is always produced; see
    [run_cli_turn_ill_shaped] for the other responses. *)
Theorem error_text_never_shown (question : str) (w : world G) :
  (valid SYSTEM_ERROR = false /\ valid APOLOGY = false)
  /\ (no_error_text (run_cli_turn medical_db) question w
      /\ rejected_twice_gives_fallback
           (run_cli_turn medical_db) query_ollama_cli
           (lookup_medical_db medical_db (Some question))
           (build_cli_prompt question)
           (build_cli_prompt question ++ newline ++ FALLBACK_HINT) question w
      /\ unreachable_gives_fallback
           (run_cli_turn medical_db)
           (lookup_medical_db medical_db (Some question)) question w
      /\ always_replies (run_cli_turn medical_db) cli_shaped question w)
  /\ (no_error_text (run_web_turn medical_db) question w
      /\ rejected_twice_gives_fallback
           (run_web_turn medical_db) query_ollama_web
           (lookup_medical_db medical_db (Some question))
           question (question ++ newline ++ FALLBACK_HINT) question w
      /\ unreachable_gives_fallback
           (run_web_turn medical_db)
           (lookup_medical_db medical_db (Some question)) question w
      /\ always_replies (run_web_turn medical_db) web_shaped question w).
Proof.
  split; [exact error_strings_invalid|split; repeat split].
  - eapply front_end_no_error_text; [apply run_cli_turn_eq|apply cli_outcome_counted].
  - eapply front_end_rejected_twice; [apply run_cli_turn_eq].
  - eapply front_end_unreachable; [apply run_cli_turn_eq|apply cli_down].
  - eapply front_end_always_replies; [apply run_cli_turn_eq|apply cli_outcome_counted].
  - eapply front_end_no_error_text; [apply run_web_turn_eq|apply web_outcome_counted].
  - eapply front_end_rejected_twice; [apply run_web_turn_eq].
  - eapply front_end_unreachable; [apply run_web_turn_eq|apply web_down].
  - eapply front_end_always_replies; [apply run_web_turn_eq|apply web_outcome_counted].
Qed.

End WrapperFacts.

(* ================================================================= *)
(** ** The front ends on concrete collaborators *)

Lemma offline_unreachable : unreachable (generator := offline).
Proof. intros url payload g. reflexivity. Qed.

Lemma s2t_char_idempotent (c : N) :
  s2t_char s2t_table (s2t_char s2t_table c) = s2t_char s2t_table c.
Proof.
  assert (Htable : forallb (fun '(a, b) =>
                              (s2t_char s2t_table b =? b)%N) s2t_table = true)
    by (vm_compute; reflexivity).
  assert (Hin : forall table,
             s2t_char table c = c
             \/ exists a, In (a, s2t_char table c) table).
  { induction table as [|[a b] table IH]; cbn [s2t_char]; [now left|].
    destruct (a =? c)%N.
    - right. exists a. now left.
    - destruct IH as [IH|(a' & IH)]; [now left|].
      right. exists a'. now right. }
  destruct (Hin s2t_table) as [E|(a & Ha)]; [now rewrite !E|].
  rewrite forallb_forall in Htable. specialize (Htable _ Ha).
  now apply N.eqb_eq in Htable.
Qed.

Lemma sample_s2t_idempotent (x : str) :
  cc_convert (Normalizer := sample_s2t)
             (cc_convert (Normalizer := sample_s2t) x)
  = cc_convert (Normalizer := sample_s2t) x.
Proof.
  cbn [cc_convert sample_s2t]. rewrite map_map.
  apply map_ext. exact s2t_char_idempotent.
Qed.

(** C2 as stated fails: with four rejected answers in a row, one request
    of [run_cli] that misses the knowledge base posts four times. *)
Lemma run_cli_posts_four_times :
  lookup_medical_db sample_db (Some (lit "頭痛")) = None
  /\ length
       (sent (snd (run_cli_turn (generator := scripted) (normalizer := sample_s2t)
                            sample_db (lit "頭痛")
                            (start [ Some (chat_body (lit "癌"));
                                     Some (chat_body (lit "癌"));
                                     Some (chat_body (lit "癌"));
                                     Some (chat_body (lit "癌")) ]))))
     = 4.
Proof. split; vm_compute; reflexivity. Qed.

(** C3 as stated fails on a hit: the record is shown with the simplified
    character it holds, which the converter would rewrite. *)
Lemma database_reply_not_normalized :
  run_cli_turn (generator := offline) (normalizer := sample_s2t)
           [(lit "發燒", fever)] (lit "我發燒了") {| gen := tt; sent := [] |}
  = (Ok (FromDatabase (format_response fever)), {| gen := tt; sent := [] |})
  /\ to_traditional (normalizer := sample_s2t) (format_response fever)
     <> format_response fever.
Proof.
  split; [vm_compute; reflexivity|].
  intros H. vm_compute in H. discriminate.
Qed.

Lemma model_reply_normalized_witness :
  exists t w',
    run_cli_turn (generator := scripted) (normalizer := sample_s2t)
             sample_db (lit "頭痛")
             (start [ Some (chat_body (lit "发烧了要多休息"));
                      Some (chat_body clean60) ])
    = (Ok (FromModel t), w')
    /\ to_traditional (normalizer := sample_s2t) t = t.
Proof.
  eexists. eexists. split; [vm_compute; reflexivity|].
  refine (proj2 (proj2 (proj2 (proj2
           (model_reply_normalized (generator := scripted)
              (normalizer := sample_s2t) sample_db (lit "頭痛")
              (start [ Some (chat_body (lit "发烧了要多休息"));
                       Some (chat_body clean60) ])))))
           sample_s2t_idempotent _ _ (or_introl _)).
  vm_compute. reflexivity.
Defined.

Lemma error_text_never_shown_witness :
  exists w',
    run_cli_turn (generator := offline) (normalizer := sample_s2t)
             sample_db (lit "頭痛") {| gen := tt; sent := [] |}
    = (Ok (FromModel (to_traditional (normalizer := sample_s2t)
                                     (fallback_response (lit "頭痛")))), w')
    /\ length (sent w') = 2.
Proof.
  destruct (error_text_never_shown (generator := offline)
              (normalizer := sample_s2t) sample_db (lit "頭痛")
              {| gen := tt; sent := [] |})
    as (_ & (_ & _ & Hdown & _) & _).
  exact (Hdown eq_refl offline_unreachable).
Defined.

(* ================================================================= *)
(** ** More on substrings and stripping *)

Section MoreStringFacts.

Lemma startswith_split (w t : str) :
  startswith w t = true <-> exists b, t = w ++ b.
Proof.
  split.
  - revert t. induction w as [|x w IH]; intros t H; [now exists t|].
    destruct t as [|y t]; [discriminate|].
    cbn [startswith] in H. apply andb_true_iff in H as [Hxy Hw].
    apply N.eqb_eq in Hxy. subst y.
    destruct (IH t Hw) as (b & ->). now exists b.
  - intros (b & ->). apply startswith_refl_app.
Qed.

Lemma contains_split (w t : str) :
  contains w t = true <-> exists a b, t = a ++ w ++ b.
Proof.
  split.
  - induction t as [|y t IH]; cbn [contains]; intros H.
    + apply startswith_split in H as (b & Hb). now exists [], b.
    + apply orb_true_iff in H as [H|H].
      * apply startswith_split in H as (b & Hb). now exists [], b.
      * destruct (IH H) as (a & b & ->). now exists (y :: a), b.
  - intros (a & b & ->). apply contains_app_mid.
Qed.

(** [in] is transitive: a part of a part is a part. *)
Lemma contains_trans (w s t : str) :
  contains w s = true -> contains s t = true -> contains w t = true.
Proof.
  intros Hws Hst.
  apply contains_split in Hws as (a & b & ->).
  apply contains_split in Hst as (a' & b' & ->).
  apply contains_split. exists (a' ++ a), (b ++ b').
  now rewrite <- !app_assoc.
Qed.

Lemma lstrip_split (s : str) :
  exists lead, s = lead ++ lstrip s /\ forallb isspace lead = true.
Proof.
  induction s as [|c s (lead & Hs & Hl)]; [now exists []|].
  cbn [lstrip]. destruct (isspace c) eqn:Hc.
  - exists (c :: lead). cbn [forallb app]. rewrite Hc, Hl. split; [|reflexivity].
    now rewrite <- Hs.
  - now exists [].
Qed.

Lemma forallb_rev {A : Type} (f : A -> bool) (l : list A) :
  forallb f (rev l) = forallb f l.
Proof.
  induction l as [|x l IH]; [reflexivity|].
  cbn [rev forallb]. rewrite forallb_app, IH. cbn [forallb].
  rewrite andb_true_r. apply andb_comm.
Qed.

Lemma rstrip_split (s : str) :
  exists trail, s = rstrip s ++ trail /\ forallb isspace trail = true.
Proof.
  destruct (lstrip_split (rev s)) as (lead & Hs & Hl).
  exists (rev lead). split; [|now rewrite forallb_rev].
  unfold rstrip. rewrite <- rev_app_distr, <- Hs. now rewrite rev_involutive.
Qed.

(** A text is its stripped form between two runs of whitespace. *)
Lemma strip_split (s : str) :
  exists lead trail,
    s = lead ++ strip s ++ trail
    /\ forallb isspace lead = true /\ forallb isspace trail = true.
Proof.
  destruct (lstrip_split s) as (lead & Hs & Hl).
  destruct (rstrip_split (lstrip s)) as (trail & Ht & Htl).
  exists lead, trail. unfold strip. now rewrite <- Ht.
Qed.

Lemma lstrip_idempotent (s : str) : lstrip (lstrip s) = lstrip s.
Proof.
  induction s as [|c s IH]; [reflexivity|].
  cbn [lstrip]. destruct (isspace c) eqn:Hc; [exact IH|].
  cbn [lstrip]. now rewrite Hc.
Qed.

Lemma lstrip_snoc (p : str) (c : N) :
  isspace c = false -> lstrip (p ++ [c]) = lstrip p ++ [c].
Proof.
  intros Hc. induction p as [|y p IH]; cbn [app lstrip].
  - now rewrite Hc.
  - destruct (isspace y); [exact IH|reflexivity].
Qed.

(** Stripping the right end keeps a left end that is already stripped. *)
Lemma lstrip_rstrip (t : str) :
  lstrip t = t -> lstrip (rstrip t) = rstrip t.
Proof.
  destruct t as [|c t]; [reflexivity|].
  cbn [lstrip]. destruct (isspace c) eqn:Hc.
  - intros H. destruct (lstrip_split t) as (lead & Ht & _).
    apply (f_equal (@length N)) in H. rewrite Ht in H at 2.
    cbn [length] in H. rewrite length_app in H. lia.
  - intros _. unfold rstrip. cbn [rev].
    rewrite (lstrip_snoc (rev t) c Hc), rev_app_distr. cbn [rev app lstrip].
    now rewrite Hc.
Qed.

Lemma strip_idempotent (s : str) : strip (strip s) = strip s.
Proof.
  unfold strip.
  rewrite (lstrip_rstrip (lstrip_idempotent s)).
  unfold rstrip. now rewrite rev_involutive, lstrip_idempotent.
Qed.

Lemma strip_length_le (s : str) : length (strip s) <= length s.
Proof.
  destruct (strip_split s) as (lead & trail & Hs & _).
  rewrite Hs at 2. rewrite !length_app. lia.
Qed.

Lemma contains_nil_false (w : str) : w <> [] -> contains w [] = false.
Proof. destruct w; [congruence|reflexivity]. Qed.

(** A word without whitespace is neither found in whitespace nor across
    it. *)
Lemma char_in_space (w : str) (c : N) :
  forallb (fun x => negb (isspace x)) w = true -> isspace c = true ->
  char_in c w = false.
Proof.
  intros Hw Hc. unfold char_in. apply existsb_false_on. intros x Hx.
  rewrite forallb_forall in Hw. specialize (Hw x Hx).
  destruct (N.eqb_spec c x) as [->|]; [|reflexivity].
  rewrite Hc in Hw. discriminate.
Qed.

Lemma contains_in_spaces (w l : str) :
  w <> [] -> forallb (fun x => negb (isspace x)) w = true ->
  forallb isspace l = true -> contains w l = false.
Proof.
  intros Hne Hw. induction l as [|c l IH]; intros Hl.
  - now apply contains_nil_false.
  - cbn [forallb] in Hl. apply andb_true_iff in Hl as [Hc Hl].
    pose proof (contains_sep w [] l c (@char_in_space w c Hw Hc)) as H.
    cbn [app] in H. rewrite H, IH by exact Hl.
    now rewrite contains_nil_false.
Qed.

Lemma contains_skip_lead (w lead t : str) :
  w <> [] -> forallb (fun x => negb (isspace x)) w = true ->
  forallb isspace lead = true ->
  contains w (lead ++ t) = contains w t.
Proof.
  intros Hne Hw. induction lead as [|c lead IH]; intros Hl; [reflexivity|].
  cbn [forallb] in Hl. apply andb_true_iff in Hl as [Hc Hl].
  pose proof (contains_sep w [] (lead ++ t) c (@char_in_space w c Hw Hc)) as H.
  cbn [app] in H. cbn [app]. rewrite H, IH by exact Hl.
  now rewrite contains_nil_false.
Qed.

Lemma contains_skip_trail (w t trail : str) :
  w <> [] -> forallb (fun x => negb (isspace x)) w = true ->
  forallb isspace trail = true ->
  contains w (t ++ trail) = contains w t.
Proof.
  intros Hne Hw Hl. destruct trail as [|c trail]; [now rewrite app_nil_r|].
  cbn [forallb] in Hl. apply andb_true_iff in Hl as [Hc Hl].
  rewrite (contains_sep w t trail c (@char_in_space w c Hw Hc)).
  rewrite (@contains_in_spaces w trail Hne Hw Hl). apply orb_false_r.
Qed.

End MoreStringFacts.

(* ================================================================= *)
(** ** More on the validator *)

Lemma words_plain (w : str) :
  In w (DANGER_WORDS ++ NONSENSE_WORDS) ->
  w <> [] /\ forallb (fun x => negb (isspace x)) w = true.
Proof.
  assert (H : forallb (fun w => negb (str_eqb w [])
                                && forallb (fun x => negb (isspace x)) w)
                      (DANGER_WORDS ++ NONSENSE_WORDS) = true)
    by (vm_compute; reflexivity).
  intros Hw. rewrite forallb_forall in H. specialize (H w Hw).
  apply andb_true_iff in H as [Hne Hsp]. split; [|exact Hsp].
  intros ->. discriminate.
Qed.

Lemma simplified_in_spaces (l : str) :
  forallb isspace l = true -> contains_simplified_chinese l = false.
Proof.
  assert (H : forallb (fun c => negb (isspace c)) SIMPLIFIED_CHARS = true)
    by (vm_compute; reflexivity).
  intros Hl. unfold contains_simplified_chinese.
  apply existsb_false_on. intros c Hc.
  destruct (char_in c SIMPLIFIED_CHARS) eqn:E; [|reflexivity].
  apply char_in_true_iff in E. rewrite forallb_forall in H, Hl.
  specialize (H c E). rewrite (Hl c Hc) in H. discriminate.
Qed.

Lemma clean_strip (s : str) : clean (strip s) = clean s.
Proof.
  destruct (strip_split s) as (lead & trail & Hs & Hl & Ht).
  rewrite Hs at 2. unfold clean. f_equal; f_equal.
  - apply existsb_eq_on. intros w Hw.
    destruct (@words_plain w Hw) as [Hne Hsp].
    rewrite (@contains_skip_lead w lead _ Hne Hsp Hl).
    now rewrite (@contains_skip_trail w _ trail Hne Hsp Ht).
  - rewrite !simplified_app, (@simplified_in_spaces lead Hl),
      (@simplified_in_spaces trail Ht).
    now rewrite orb_false_r.
Qed.

(** X1.  Lowering [min_length] never turns an accepted text into a
    rejected one. *)
Theorem is_valid_response_min_length_monotone
        (text : value) (m m' : Z) :
  (m' <= m)%Z ->
  fst (is_valid_response text m) = true ->
  fst (is_valid_response text m') = true.
Proof.
  intros Hle. destruct text as [| | |s| |]; try (simpl; discriminate).
  rewrite !valid_string_eq, !andb_true_iff, !Z.leb_le.
  intros [Hrest Hlen]. split; [exact Hrest|lia].
Qed.

Lemma is_valid_response_min_length_monotone_witness :
  fst (is_valid_response (VStr clean60) 10) = true.
Proof.
  apply (@is_valid_response_min_length_monotone (VStr clean60) 50 10).
  - lia.
  - vm_compute. reflexivity.
Defined.

(** X2.  For a positive [min_length], a text and its stripped form get the
    same answer from the validator: whitespace around a text neither hides
    nor brings in a banned word or character, and the length that counts
    is the stripped one. *)
Theorem is_valid_response_strip (s : str) (m : Z) :
  (1 <= m)%Z ->
  fst (is_valid_response (VStr (strip s)) m)
  = fst (is_valid_response (VStr s) m).
Proof.
  intros Hm. rewrite !valid_string_eq, strip_idempotent.
  pose proof (clean_strip s) as Hc. unfold clean in Hc.
  rewrite <- !andb_assoc.
  rewrite (andb_assoc (negb (existsb _ _)) (negb (contains_simplified_chinese (strip s)))).
  rewrite (andb_assoc (negb (existsb (fun w => contains w s) _))).
  rewrite Hc.
  destruct (strip s) as [|c core] eqn:Hcore.
  - cbn [str_eqb negb andb length].
    replace (m <=? Z.of_nat 0)%Z with false
      by (symmetry; apply Z.leb_gt; lia).
    now rewrite !andb_false_r.
  - destruct s as [|c' s']; [discriminate|reflexivity].
Qed.

Lemma is_valid_response_strip_witness :
  fst (is_valid_response (VStr (strip (32%N :: clean60 ++ [10%N]))) 50)
  = fst (is_valid_response (VStr (32%N :: clean60 ++ [10%N])) 50).
Proof.
  apply (@is_valid_response_strip (32%N :: clean60 ++ [10%N]) 50). lia.
Defined.

(** X3.  What the validator accepts has no banned part: every text that
    occurs in an accepted text is free of danger words, nonsense words and
    characters of the simplified set. *)
Theorem accepted_text_has_clean_parts (s t : str) (m : Z) :
  fst (is_valid_response (VStr t) m) = true ->
  contains s t = true ->
  existsb (fun w => contains w s) (DANGER_WORDS ++ NONSENSE_WORDS) = false
  /\ contains_simplified_chinese s = false.
Proof.
  rewrite valid_string_eq, !andb_true_iff, !negb_true_iff.
  intros [[[_ Hw] Hs] _] Hst. split.
  - apply existsb_false_on. intros w Hin.
    destruct (contains w s) eqn:Hws; [|reflexivity].
    rewrite existsb_false_on in Hw. rewrite <- (Hw w Hin).
    symmetry. now apply contains_trans with (s := s).
  - apply contains_split in Hst as (a & b & ->).
    rewrite !simplified_app in Hs.
    apply orb_false_iff in Hs as [_ Hs].
    now apply orb_false_iff in Hs as [Hs _].
Qed.

Lemma accepted_text_has_clean_parts_witness :
  existsb (fun w => contains w (lit "多喝溫開水"))
          (DANGER_WORDS ++ NONSENSE_WORDS) = false
  /\ contains_simplified_chinese (lit "多喝溫開水") = false.
Proof.
  apply (@accepted_text_has_clean_parts (lit "多喝溫開水") clean60 50);
    vm_compute; reflexivity.
Defined.

(* ================================================================= *)
(** ** More on the lookup *)

Lemma scan_db_some (db : list (str * AdviceRecord)) (text r : str) :
  scan_db db text = Some r ->
  exists k e, In (k, e) db /\ key_matches k text = true
              /\ r = format_response e.
Proof.
  induction db as [|[k e] db IH]; cbn [scan_db]; [discriminate|].
  destruct (key_matches k text) eqn:Hk.
  - intros [= <-]. exists k, e. split; [now left|auto].
  - intros H. destruct (IH H) as (k' & e' & Hin & Hm & Hr).
    exists k', e'. split; [now right|auto].
Qed.

Lemma lookup_some (db : list (str * AdviceRecord)) (u : option str) (r : str) :
  lookup_medical_db db u = Some r ->
  exists s k e, u = Some s /\ s <> [] /\ In (k, e) db
                /\ key_matches k (strip s) = true /\ r = format_response e.
Proof.
  destruct u as [s|]; [|discriminate].
  destruct s as [|c s]; [discriminate|].
  rewrite lookup_nonempty by discriminate. intros H.
  destruct (scan_db_some _ _ H) as (k & e & Hin & Hk & Hr).
  exists (c :: s), k, e. repeat split; auto. discriminate.
Qed.

(** X4.  A hit of the lookup is never taken for a miss by [if db_reply:]:
    the text returned is never the empty string. *)
Theorem lookup_hit_is_truthy (medical_db : list (str * AdviceRecord))
        (user_input : option str) :
  truthy_reply (lookup_medical_db medical_db user_input) = true
  <-> lookup_medical_db medical_db user_input <> None.
Proof.
  destruct (lookup_medical_db medical_db user_input) as [r|] eqn:H.
  - split; [discriminate|intros _].
    destruct (lookup_some _ _ H) as (s & k & e & _ & _ & _ & _ & ->).
    cbn [truthy_reply truthy]. now rewrite format_nonempty.
  - split; [discriminate|congruence].
Qed.

(** X5.  For a non-empty text the lookup hits exactly when some keyword of
    the knowledge base, or one of its synonyms, occurs in the stripped
    text. *)
Theorem lookup_hits_iff_keyword_occurs
        (medical_db : list (str * AdviceRecord)) (userText : str) :
  userText <> [] ->
  (lookup_medical_db medical_db (Some userText) <> None
   <-> exists k e, In (k, e) medical_db
                   /\ keyword_occurs k (strip userText)).
Proof.
  intros Hne. split.
  - destruct (lookup_medical_db medical_db (Some userText)) as [r|] eqn:H;
      [intros _|congruence].
    destruct (lookup_some _ _ H) as (s & k & e & [= <-] & _ & Hin & Hk & _).
    exists k, e. split; [exact Hin|now apply key_matches_iff].
  - intros (k & e & Hin & Hk) Hnone.
    rewrite lookup_nonempty in Hnone by exact Hne.
    apply key_matches_iff in Hk.
    revert Hin Hnone. induction medical_db as [|[k' e'] db IH];
      cbn [scan_db In]; [tauto|].
    intros [[= -> ->]|Hin].
    + now rewrite Hk.
    + destruct (key_matches k' (strip userText)); [discriminate|auto].
Qed.

Lemma lookup_hits_iff_keyword_occurs_witness :
  lookup_medical_db sample_db (Some (lit "最近常常暈眩")) <> None.
Proof.
  apply (proj2 (@lookup_hits_iff_keyword_occurs sample_db (lit "最近常常暈眩")
                  ltac:(discriminate))).
  exists (lit "頭暈"), dizzy. split.
  - right. right. left. reflexivity.
  - right. exists (lit "暈眩"). split; [left; reflexivity|].
    vm_compute. reflexivity.
Defined.

(** X6.  Whitespace around a text does not change the result of the
    lookup, as long as the text is not blank. *)
Theorem lookup_ignores_surrounding_whitespace
        (medical_db : list (str * AdviceRecord)) (userText : str) :
  strip userText <> [] ->
  lookup_medical_db medical_db (Some (strip userText))
  = lookup_medical_db medical_db (Some userText).
Proof.
  intros Hcore.
  assert (Hne : userText <> []) by (intros ->; now apply Hcore).
  rewrite !lookup_nonempty by assumption.
  now rewrite strip_idempotent.
Qed.

Lemma lookup_ignores_surrounding_whitespace_witness :
  lookup_medical_db sample_db (Some (strip (lit "  我拉肚子 ")))
  = lookup_medical_db sample_db (Some (lit "  我拉肚子 ")).
Proof.
  apply (@lookup_ignores_surrounding_whitespace sample_db (lit "  我拉肚子 ")).
  vm_compute. discriminate.
Defined.

Lemma str_eqb_eq (a b : str) : str_eqb a b = true <-> a = b.
Proof.
  revert b. induction a as [|x a IH]; intros [|y b]; cbn [str_eqb];
    try (split; congruence).
  rewrite andb_true_iff, N.eqb_eq, IH. split.
  - intros [-> ->]. reflexivity.
  - intros [= -> ->]. auto.
Qed.

Lemma dict_get_missing {A : Type} (d : list (str * A)) (key : str)
      (default : A) :
  ~ In key (map fst d) -> dict_get d key default = default.
Proof.
  induction d as [|[k v] d IH]; cbn [dict_get map fst In]; [reflexivity|].
  intros H. destruct (str_eqb k key) eqn:E.
  - apply str_eqb_eq in E. tauto.
  - apply IH. tauto.
Qed.

(** X7.  A keyword that is not a key of [SYNONYMS] has no synonyms: it
    matches a text exactly when it occurs in it. *)
Theorem keyword_without_synonyms (key text : str) :
  ~ In key (map fst SYNONYMS) ->
  key_matches key text = contains key text.
Proof.
  intros H. unfold key_matches. rewrite (@dict_get_missing _ SYNONYMS key [] H).
  cbn [existsb]. apply orb_false_r.
Qed.

Lemma keyword_without_synonyms_witness :
  key_matches (lit "咳嗽") (lit "腹痛又跑廁所") = false.
Proof.
  rewrite (@keyword_without_synonyms (lit "咳嗽") (lit "腹痛又跑廁所")).
  - vm_compute. reflexivity.
  - vm_compute. intuition discriminate.
Defined.

(** X8.  First match wins for good: entries added after the ones of the
    knowledge base never change a hit. *)
Theorem lookup_hit_stable_under_append
        (medical_db more : list (str * AdviceRecord))
        (user_input : option str) (r : str) :
  lookup_medical_db medical_db user_input = Some r ->
  lookup_medical_db (medical_db ++ more) user_input = Some r.
Proof.
  destruct user_input as [s|]; [|discriminate].
  destruct s as [|c s]; [discriminate|].
  rewrite !lookup_nonempty by discriminate.
  induction medical_db as [|[k e] db IH]; cbn [scan_db app]; [discriminate|].
  destruct (key_matches k (strip (c :: s))); auto.
Qed.

Lemma lookup_hit_stable_under_append_witness :
  lookup_medical_db (sample_db ++ [(lit "痛", fever)])
                    (Some (lit "肚子痛")) = Some (format_response belly_ache).
Proof.
  apply (@lookup_hit_stable_under_append sample_db [(lit "痛", fever)]
           (Some (lit "肚子痛")) (format_response belly_ache)).
  vm_compute. reflexivity.
Defined.

(* ================================================================= *)
(** ** More on the formatter and the fallback template *)

Lemma contains_self_app (l a b : str) : contains l (a ++ l ++ b) = true.
Proof. apply contains_app_mid. Qed.

Lemma contains_join_line (sep l : str) (lines : list str) :
  In l lines -> contains l (join sep lines) = true.
Proof.
  induction lines as [|x ls IH]; [intros []|].
  destruct ls as [|y ls].
  - intros [->|[]]. cbn [join].
    pose proof (contains_app_mid l [] []) as H.
    cbn [app] in H. now rewrite app_nil_r in H.
  - rewrite join_cons by discriminate. intros [->|Hin].
    + apply (contains_app_mid l []).
    + apply contains_trans with (s := join sep (y :: ls)); [now apply IH|].
      apply contains_split. exists (x ++ sep), [].
      now rewrite app_nil_r, <- app_assoc.
Qed.

Lemma bullet_line_in_section (title t : str) (items : list str) :
  In t items -> In (bullet ++ t) (section_lines title items).
Proof.
  intros Hin. unfold section_lines. right.
  destruct items as [|i items]; [destruct Hin|].
  now apply (in_map (fun item => bullet ++ item)).
Qed.

(** X9.  The formatter drops nothing: every item of the three lists, and
    the encouragement (or its default), occurs in the formatted text. *)
Theorem format_response_keeps_every_text (entry : AdviceRecord) (t : str) :
  In t (record_texts entry) ->
  contains t (format_response entry) = true.
Proof.
  intros Hin.
  apply contains_trans with (s := bullet ++ t).
  { apply contains_split. exists bullet, []. now rewrite app_nil_r. }
  rewrite format_response_lines. apply contains_join_line.
  unfold record_texts in Hin.
  repeat (apply in_app_or in Hin as [Hin|Hin]).
  - apply in_or_app. left. now apply bullet_line_in_section.
  - apply in_or_app. right. apply in_or_app. left.
    now apply bullet_line_in_section.
  - do 2 (apply in_or_app; right). apply in_or_app. left.
    now apply bullet_line_in_section.
  - destruct Hin as [<-|[]].
    do 4 (apply in_or_app; right). now left.
Qed.

Lemma format_response_keeps_every_text_witness :
  contains (lit "熱敷肚子") (format_response belly_ache) = true.
Proof.
  apply (@format_response_keeps_every_text belly_ache (lit "熱敷肚子")).
  vm_compute. tauto.
Defined.

Lemma join_app (sep : str) (a b : list str) :
  a <> [] -> b <> [] ->
  join sep (a ++ b) = join sep a ++ sep ++ join sep b.
Proof.
  intros Ha Hb. induction a as [|x a IH]; [congruence|].
  destruct a as [|y a].
  - cbn [app]. now rewrite join_cons.
  - change ((x :: y :: a) ++ b) with (x :: ((y :: a) ++ b)).
    rewrite join_cons by discriminate.
    rewrite IH by discriminate.
    rewrite (join_cons sep x (ls := y :: a)) by discriminate.
    now rewrite <- !app_assoc.
Qed.

(** X10.  The four sections are always there, in their order, each title
    on a line of its own, whatever the record holds: a missing key or an
    empty list only changes what stands between the titles. *)
Theorem format_response_sections_in_order (entry : AdviceRecord) :
  exists causes care doctor closing : str,
    format_response entry
    = lit "1. 可能原因：" ++ newline ++ causes ++ newline
      ++ lit "2. 在家可以怎麼做：" ++ newline ++ care ++ newline
      ++ lit "3. 什麼時候需要看醫生：" ++ newline ++ doctor ++ newline
      ++ lit "4. 鼓勵的話：" ++ newline ++ closing
    /\ startswith bullet causes = true /\ startswith bullet care = true
    /\ startswith bullet doctor = true /\ startswith bullet closing = true.
Proof.
  assert (Hbody : forall title items,
             exists body,
               section_lines title items = [title] ++ body
               /\ body <> []
               /\ startswith bullet (join newline body) = true).
  { intros title items. unfold section_lines.
    destruct items as [|i items]; eexists;
      (split; [reflexivity|split; [discriminate|]]).
    - apply startswith_refl_app.
    - cbn [map].
      match goal with
      | |- context [_ :: map ?f items] => destruct (map f items)
      end.
      + apply startswith_refl_app.
      + rewrite join_cons by discriminate. rewrite <- app_assoc.
        apply startswith_refl_app. }
  rewrite format_response_lines.
  destruct (Hbody (lit "1. 可能原因：") (get_or (possible_causes entry) []))
    as (b1 & -> & Hn1 & Hs1).
  destruct (Hbody (lit "2. 在家可以怎麼做：") (get_or (self_care entry) []))
    as (b2 & -> & Hn2 & Hs2).
  destruct (Hbody (lit "3. 什麼時候需要看醫生：")
                  (get_or (when_to_see_doctor entry) []))
    as (b3 & -> & Hn3 & Hs3).
  exists (join newline b1), (join newline b2), (join newline b3),
    (bullet ++ get_or (encouragement entry) (lit "請多注意休息喔！")).
  split; [|repeat split; auto using startswith_refl_app].
  rewrite <- !app_assoc.
  repeat (rewrite join_app by
             (try discriminate; try assumption;
              intros H; apply app_eq_nil in H as [H _];
              (discriminate || contradiction))).
  cbn [join]. reflexivity.
Qed.

(** X11.  The fallback template adds 100 characters to the text it
    echoes, and different texts give different replies. *)
Theorem fallback_response_length_and_injective (u v : str) :
  length (fallback_response u) = 100 + length u
  /\ (fallback_response u = fallback_response v -> u = v).
Proof.
  unfold fallback_response. split.
  - rewrite !length_app.
    change (length fallback_head) with 10.
    change (length fallback_tail) with 90. lia.
  - intros H. apply app_inv_head in H. now apply app_inv_tail in H.
Qed.

(* ================================================================= *)
(** ** More on loading the knowledge base *)

(** X12.  What [load_medical_db] can do: it logs at most one record, and
    when it logs the result is the empty dict (a warning for a missing
    file, an error otherwise); when it logs nothing it returns what was
    parsed from the file, unchanged and whatever its type, or it raises:
    [UnicodeDecodeError] on bytes that are not UTF-8, or what [json.load]
    itself raises other than [JSONDecodeError]. *)
Theorem load_medical_db_outcomes (json_loads : str -> Store.json_outcome)
        (f : Store.db_file) :
  match Store.load_medical_db json_loads f with
  | (Ok v, []) =>
    exists content text,
      f = Store.FileBytes content /\ utf8_decode content = Some text
      /\ json_loads text = Store.JsonValue v
  | (Ok v, [(lvl, _)]) =>
    v = VDict [] /\ lvl <> INFO /\ (lvl = WARNING <-> f = Store.NoFile)
  | (Ok _, _ :: _ :: _) => False
  | (Raise e, logs) =>
    logs = []
    /\ exists content,
        f = Store.FileBytes content
        /\ ((utf8_decode content = None /\ e = UnicodeDecodeError)
            \/ exists text, utf8_decode content = Some text
                            /\ json_loads text = Store.JsonRaises e)
  end.
Proof.
  destruct f as [|err|content]; cbn [Store.load_medical_db].
  - repeat split; try discriminate; auto.
  - repeat split; try discriminate.
  - destruct (utf8_decode content) as [text|] eqn:Hd.
    + destruct (json_loads text) as [v|err|e] eqn:Hj.
      * now exists content, text.
      * repeat split; try discriminate.
      * split; [reflexivity|]. exists content. split; [reflexivity|].
        right. now exists text.
    + split; [reflexivity|]. exists content. split; [reflexivity|].
      now left.
Qed.

(* ================================================================= *)
(** ** More on the front ends *)

Section FrontEndMore.

Context {G : Type} {generator : Generator G} {normalizer : Normalizer}.

Variable url : str.
Variable mk : str -> value.
Variable next : str -> str.
Variable answer : value -> result str.
Variable query : str -> bool -> M G str.

Hypothesis query_eq :
  forall arg use_fallback w,
    query arg use_fallback w
    = if truthy (response_of w url (mk arg)) then
        match answer (response_of w url (mk arg)) with
        | Raise e => (Raise e, posted w url (mk arg))
        | Ok a =>
          if valid a then (Ok (to_traditional a), posted w url (mk arg))
          else if use_fallback then (Ok APOLOGY, posted w url (mk arg))
          else query (next arg) true (posted w url (mk arg))
        end
      else (Ok SYSTEM_ERROR, posted w url (mk arg)).

Variable turn : str -> M G shown.
Variable db_reply : option str.
Variables first second question : str.

Hypothesis turn_eq :
  forall w,
    turn question w
    = if truthy_reply db_reply
      then (Ok (FromDatabase (get_or db_reply [])), w)
      else model_path query first second question w.

Hypothesis miss : truthy_reply db_reply = false.

Lemma wrapper_rejected_twice (arg : str) (w : world G) :
  always_rejected answer ->
  query arg false w
  = (Ok APOLOGY, posted (posted w url (mk arg)) url (mk (next arg))).
Proof.
  intros Hrej.
  assert (Hstep : forall a (w0 : world G),
             exists t, response_of w0 url (mk a) = t /\ truthy t = true
                       /\ exists x, answer t = Ok x /\ valid x = false).
  { intros a w0.
    destruct (Hrej url (mk a) (gen w0)) as (v & x & Hp & Ht & Ha & Hv).
    exists v. unfold response_of. rewrite Hp. eauto. }
  rewrite query_eq.
  destruct (Hstep arg w) as (t & -> & -> & x & -> & ->).
  rewrite query_eq.
  destruct (Hstep (next arg) (posted w url (mk arg)))
    as (t' & -> & -> & x' & -> & ->).
  reflexivity.
Qed.

Lemma turn_all_rejected (w : world G) :
  always_rejected answer ->
  turn question w
  = (Ok (FromModel (to_traditional (fallback_response question))),
     posted (posted (posted (posted w url (mk first)) url (mk (next first)))
                    url (mk second)) url (mk (next second))).
Proof.
  intros Hrej. rewrite turn_eq, miss.
  destruct error_strings_invalid as [_ Hapo].
  apply model_path_rejected
    with (w1 := posted (posted w url (mk first)) url (mk (next first)))
         (r1 := APOLOGY) (r2 := APOLOGY); auto using wrapper_rejected_twice.
Qed.

Lemma turn_first_accepted (w : world G) (a : str) :
  truthy (response_of w url (mk first)) = true ->
  answer (response_of w url (mk first)) = Ok a ->
  valid a = true -> valid (to_traditional a) = true ->
  turn question w
  = (Ok (FromModel (to_traditional (to_traditional a))),
     posted w url (mk first)).
Proof.
  intros Ht Ha Hv Hv'. rewrite turn_eq, miss.
  unfold model_path, bind. rewrite query_eq, Ht, Ha, Hv, Hv'.
  cbn [negb]. unfold ret. now rewrite Hv'.
Qed.

Lemma turn_accepted_then_rejected (w : world G) (a : str) :
  truthy (response_of w url (mk first)) = true ->
  answer (response_of w url (mk first)) = Ok a ->
  valid a = true -> valid (to_traditional a) = false ->
  turn question w
  = match query second false (posted w url (mk first)) with
    | (Ok t, w2) =>
      (Ok (FromModel (to_traditional
                        (if valid t then t else fallback_response question))),
       w2)
    | (Raise e, w2) => (Raise e, w2)
    end.
Proof.
  intros Ht Ha Hv Hv'. rewrite turn_eq, miss.
  unfold model_path, bind. rewrite query_eq, Ht, Ha, Hv, Hv'.
  cbn [negb].
  destruct (query second false (posted w url (mk first))) as [[t|e] w2];
    [|reflexivity].
  unfold ret. destruct (valid t); reflexivity.
Qed.

End FrontEndMore.

Section FrontEndExtras.

Context {G : Type} {generator : Generator G} {normalizer : Normalizer}.

Variable medical_db : list (str * AdviceRecord).

(** X13.  When every answer is rejected, a request of [run_cli] that
    misses the knowledge base posts exactly four prompts: the prompt, the
    prompt with the hint after a blank line, the prompt with the hint on
    the next line, and that one with the hint once more after a blank
    line.  The reply is the normalized fallback template. *)
Theorem run_cli_turn_all_rejected (question : str) (w : world G) :
  truthy_reply (lookup_medical_db medical_db (Some question)) = false ->
  always_rejected cli_answer ->
  exists w',
    run_cli_turn medical_db question w
    = (Ok (FromModel (to_traditional (fallback_response question))), w')
    /\ sent w'
       = sent w
         ++ [ (OLLAMA_URL_CLI, cli_payload (build_cli_prompt question));
              (OLLAMA_URL_CLI,
               cli_payload (build_cli_prompt question
                            ++ newline ++ newline ++ FALLBACK_HINT));
              (OLLAMA_URL_CLI,
               cli_payload (build_cli_prompt question
                            ++ newline ++ FALLBACK_HINT));
              (OLLAMA_URL_CLI,
               cli_payload ((build_cli_prompt question
                             ++ newline ++ FALLBACK_HINT)
                            ++ newline ++ newline ++ FALLBACK_HINT)) ].
Proof.
  intros Hmiss Hrej. eexists. split.
  - exact (@turn_all_rejected G generator normalizer OLLAMA_URL_CLI
             cli_payload
             (fun p => p ++ newline ++ newline ++ FALLBACK_HINT) cli_answer query_ollama_cli
             query_ollama_cli_eq (run_cli_turn medical_db) _
             (build_cli_prompt question)
             (build_cli_prompt question ++ newline ++ FALLBACK_HINT) question
             (run_cli_turn_eq medical_db question) Hmiss w Hrej).
  - rewrite !sent_posted. cbn beta. cbn [map].
    rewrite <- !app_assoc. reflexivity.
Qed.

(** X14.  The same for [run_web]: four prompts are built, for the input,
    for the input followed by "。" and the hint, for the input with the
    hint on the next line, and for that one followed by "。" and the hint
    again; the reply is the normalized fallback template for the
    input. *)
Theorem run_web_turn_all_rejected (user_input : str) (w : world G) :
  truthy_reply (lookup_medical_db medical_db (Some user_input)) = false ->
  always_rejected web_answer ->
  exists w',
    run_web_turn medical_db user_input w
    = (Ok (FromModel (to_traditional (fallback_response user_input))), w')
    /\ sent w'
       = sent w
         ++ map (fun u => (OLLAMA_URL_WEB, web_payload (build_web_prompt u)))
                [ user_input;
                  user_input ++ lit "。" ++ FALLBACK_HINT;
                  user_input ++ newline ++ FALLBACK_HINT;
                  (user_input ++ newline ++ FALLBACK_HINT)
                  ++ lit "。" ++ FALLBACK_HINT ].
Proof.
  intros Hmiss Hrej. eexists. split.
  - exact (@turn_all_rejected G generator normalizer OLLAMA_URL_WEB
             (fun u => web_payload (build_web_prompt u))
             (fun u => u ++ lit "。" ++ FALLBACK_HINT) web_answer query_ollama_web
             query_ollama_web_eq (run_web_turn medical_db) _
             user_input (user_input ++ newline ++ FALLBACK_HINT) user_input
             (run_web_turn_eq medical_db user_input) Hmiss w Hrej).
  - rewrite !sent_posted. cbn beta. cbn [map].
    rewrite <- !app_assoc. reflexivity.
Qed.

(** X15.  When the first answer is accepted, and accepted again once
    normalized, [run_cli] posts once and shows the answer normalized
    twice: by the wrapper and by the front end. *)
Theorem run_cli_turn_first_accepted (question : str) (w : world G)
        (a : str) :
  truthy_reply (lookup_medical_db medical_db (Some question)) = false ->
  truthy (response_of w OLLAMA_URL_CLI
                      (cli_payload (build_cli_prompt question))) = true ->
  cli_answer (response_of w OLLAMA_URL_CLI
                          (cli_payload (build_cli_prompt question))) = Ok a ->
  valid a = true -> valid (to_traditional a) = true ->
  run_cli_turn medical_db question w
  = (Ok (FromModel (to_traditional (to_traditional a))),
     posted w OLLAMA_URL_CLI (cli_payload (build_cli_prompt question))).
Proof.
  intros Hmiss Ht Ha Hv Hv'.
  exact (@turn_first_accepted G generator normalizer OLLAMA_URL_CLI
           cli_payload
             (fun p => p ++ newline ++ newline ++ FALLBACK_HINT) cli_answer query_ollama_cli
           query_ollama_cli_eq (run_cli_turn medical_db) _
           (build_cli_prompt question)
           (build_cli_prompt question ++ newline ++ FALLBACK_HINT) question
           (run_cli_turn_eq medical_db question) Hmiss w a Ht Ha Hv Hv').
Qed.

(** X16.  The same for [run_web]. *)
Theorem run_web_turn_first_accepted (user_input : str) (w : world G)
        (a : str) :
  truthy_reply (lookup_medical_db medical_db (Some user_input)) = false ->
  truthy (response_of w OLLAMA_URL_WEB
                      (web_payload (build_web_prompt user_input))) = true ->
  web_answer (response_of w OLLAMA_URL_WEB
                          (web_payload (build_web_prompt user_input)))
  = Ok a ->
  valid a = true -> valid (to_traditional a) = true ->
  run_web_turn medical_db user_input w
  = (Ok (FromModel (to_traditional (to_traditional a))),
     posted w OLLAMA_URL_WEB (web_payload (build_web_prompt user_input))).
Proof.
  intros Hmiss Ht Ha Hv Hv'.
  exact (@turn_first_accepted G generator normalizer OLLAMA_URL_WEB
           (fun u => web_payload (build_web_prompt u))
             (fun u => u ++ lit "。" ++ FALLBACK_HINT) web_answer query_ollama_web
           query_ollama_web_eq (run_web_turn medical_db) _
           user_input (user_input ++ newline ++ FALLBACK_HINT) user_input
           (run_web_turn_eq medical_db user_input) Hmiss w a Ht Ha Hv Hv').
Qed.

(** X17.  The front end validates the normalized text.  An answer the
    wrapper accepted is thrown away when its normalized form is rejected:
    [run_cli] then calls the wrapper again with the hint, and shows what
    that call returns if it is accepted, the fallback template if not. *)
Theorem run_cli_turn_accepted_then_rejected (question : str) (w : world G)
        (a : str) :
  truthy_reply (lookup_medical_db medical_db (Some question)) = false ->
  truthy (response_of w OLLAMA_URL_CLI
                      (cli_payload (build_cli_prompt question))) = true ->
  cli_answer (response_of w OLLAMA_URL_CLI
                          (cli_payload (build_cli_prompt question))) = Ok a ->
  valid a = true -> valid (to_traditional a) = false ->
  run_cli_turn medical_db question w
  = match query_ollama_cli
            (build_cli_prompt question ++ newline ++ FALLBACK_HINT) false
            (posted w OLLAMA_URL_CLI
                    (cli_payload (build_cli_prompt question))) with
    | (Ok t, w2) =>
      (Ok (FromModel (to_traditional
                        (if valid t then t else fallback_response question))),
       w2)
    | (Raise e, w2) => (Raise e, w2)
    end.
Proof.
  intros Hmiss Ht Ha Hv Hv'.
  exact (@turn_accepted_then_rejected G generator normalizer OLLAMA_URL_CLI
           cli_payload
             (fun p => p ++ newline ++ newline ++ FALLBACK_HINT) cli_answer query_ollama_cli
           query_ollama_cli_eq (run_cli_turn medical_db) _
           (build_cli_prompt question)
           (build_cli_prompt question ++ newline ++ FALLBACK_HINT) question
           (run_cli_turn_eq medical_db question) Hmiss w a Ht Ha Hv Hv').
Qed.

End FrontEndExtras.

Lemma parrot_always_rejected_cli :
  always_rejected (generator := parrot (chat_body (lit "癌"))) cli_answer.
Proof.
  intros url payload g. exists (chat_body (lit "癌")), (lit "癌").
  repeat split; vm_compute; reflexivity.
Qed.

Lemma parrot_always_rejected_web :
  always_rejected (generator := parrot (generate_body (lit "癌"))) web_answer.
Proof.
  intros url payload g. exists (generate_body (lit "癌")), (lit "癌").
  repeat split; vm_compute; reflexivity.
Qed.

Lemma run_cli_turn_all_rejected_witness :
  exists w',
    run_cli_turn (generator := parrot (chat_body (lit "癌")))
                 (normalizer := sample_s2t) sample_db (lit "頭痛")
                 {| gen := tt; sent := [] |}
    = (Ok (FromModel (to_traditional (normalizer := sample_s2t)
                                     (fallback_response (lit "頭痛")))), w')
    /\ length (sent w') = 4.
Proof.
  destruct (@run_cli_turn_all_rejected unit (parrot (chat_body (lit "癌")))
              sample_s2t sample_db (lit "頭痛") {| gen := tt; sent := [] |}
              eq_refl parrot_always_rejected_cli)
    as (w' & Hturn & Hsent).
  exists w'. split; [exact Hturn|]. rewrite Hsent. reflexivity.
Defined.

Lemma run_web_turn_all_rejected_witness :
  exists w',
    run_web_turn (generator := parrot (generate_body (lit "癌")))
                 (normalizer := sample_s2t) sample_db (lit "頭痛")
                 {| gen := tt; sent := [] |}
    = (Ok (FromModel (to_traditional (normalizer := sample_s2t)
                                     (fallback_response (lit "頭痛")))), w')
    /\ length (sent w') = 4.
Proof.
  destruct (@run_web_turn_all_rejected unit
              (parrot (generate_body (lit "癌")))
              sample_s2t sample_db (lit "頭痛") {| gen := tt; sent := [] |}
              eq_refl parrot_always_rejected_web)
    as (w' & Hturn & Hsent).
  exists w'. split; [exact Hturn|]. rewrite Hsent. reflexivity.
Defined.

Lemma run_cli_turn_first_accepted_witness :
  fst (run_cli_turn (generator := scripted) (normalizer := sample_s2t)
                    sample_db (lit "頭痛") (start [Some (chat_body clean60)]))
  = Ok (FromModel clean60).
Proof.
  rewrite (@run_cli_turn_first_accepted _ scripted sample_s2t sample_db
             (lit "頭痛") (start [Some (chat_body clean60)]) clean60);
    vm_compute; reflexivity.
Defined.

Lemma run_web_turn_first_accepted_witness :
  fst (run_web_turn (generator := scripted) (normalizer := sample_s2t)
                    sample_db (lit "頭痛")
                    (start [Some (generate_body clean60)]))
  = Ok (FromModel clean60).
Proof.
  rewrite (@run_web_turn_first_accepted _ scripted sample_s2t sample_db
             (lit "頭痛") (start [Some (generate_body clean60)]) clean60);
    vm_compute; reflexivity.
Defined.

Lemma run_cli_turn_accepted_then_rejected_witness :
  valid worsening60 = true
  /\ run_cli_turn (generator := scripted) (normalizer := s2t_wide)
                  sample_db (lit "頭痛")
                  (start [Some (chat_body worsening60);
                          Some (chat_body clean60)])
     = (Ok (FromModel clean60),
        {| gen := [];
           sent := [ (OLLAMA_URL_CLI,
                      cli_payload (build_cli_prompt (lit "頭痛")));
                     (OLLAMA_URL_CLI,
                      cli_payload (build_cli_prompt (lit "頭痛")
                                   ++ newline ++ FALLBACK_HINT)) ] |}).
Proof.
  split; [vm_compute; reflexivity|].
  rewrite (@run_cli_turn_accepted_then_rejected _ scripted s2t_wide sample_db
             (lit "頭痛")
             (start [Some (chat_body worsening60); Some (chat_body clean60)])
             worsening60);
    vm_compute; reflexivity.
Defined.

(* ================================================================= *)
(** ** The sessions *)

Section SessionFacts.

Context {G : Type} {generator : Generator G} {normalizer : Normalizer}
        {casing : Casing}.

Variable medical_db : list (str * AdviceRecord).

Lemma run_cli_turn_posts (question : str) (w : world G) :
  exists r w' extra,
    run_cli_turn medical_db question w = (r, w')
    /\ sent w' = sent w ++ extra
    /\ match r with
       | Ok (FromDatabase _) => extra = []
       | _ => length extra <= 4
       end.
Proof.
  rewrite run_cli_turn_eq.
  destruct (truthy_reply (lookup_medical_db medical_db (Some question))).
  - do 2 eexists. exists []. rewrite app_nil_r. repeat split.
  - destruct (@model_path_outcome G normalizer query_ollama_cli cli_shaped
                (build_cli_prompt question)
                (build_cli_prompt question ++ newline ++ FALLBACK_HINT)
                question cli_outcome_counted w)
      as (r & w' & extra & Hm & Hs & Hl & Hr).
    exists r, w', extra. split; [exact Hm|split; [exact Hs|]].
    destruct Hr as [[-> _]|(c & -> & _)]; lia.
Qed.

(** X18.  A session of [run_cli] posts at most four times for each request
    that reached the model path; empty lines, "exit", an interrupt and
    hits of the knowledge base post nothing. *)
Theorem run_cli_session_posts (inputs : list (option str)) (w : world G) :
  exists outs e w' extra,
    run_cli_loop medical_db inputs w = ((outs, e), w')
    /\ sent w' = sent w ++ extra
    /\ length extra <= 4 * model_requests outs e.
Proof.
  revert w. induction inputs as [|[line|] rest IH]; intros w;
    cbn [run_cli_loop].
  - exists [Stopped], None, w, []. rewrite app_nil_r. cbn. repeat split; lia.
  - destruct (negb (truthy (VStr (strip line)))).
    + destruct (IH w) as (outs & e & w' & extra & -> & Hs & Hl).
      exists (Warned :: outs), e, w', extra.
      repeat split; auto.
    + destruct (str_eqb (py_lower (strip line)) (lit "exit")).
      * exists [Goodbye], None, w, []. rewrite app_nil_r. cbn.
        repeat split; lia.
      * destruct (run_cli_turn_posts (strip line) w)
          as (r & w1 & x1 & -> & Hs1 & Hl1).
        destruct r as [s|ex].
        -- destruct (IH w1) as (outs & e & w' & extra & -> & Hs & Hl).
           exists (Showed s :: outs), e, w', (x1 ++ extra).
           split; [reflexivity|]. rewrite Hs, Hs1, <- app_assoc.
           split; [reflexivity|]. rewrite length_app.
           unfold model_requests in *. cbn [filter length].
           destruct s as [t|t]; [subst x1|]; cbn [length]; lia.
        -- exists [], (Some ex), w1, x1. unfold model_requests. cbn.
           repeat split; auto; lia.
  - exists [Stopped], None, w, []. rewrite app_nil_r. cbn. repeat split; lia.
Qed.

(** X19.  Nothing is read after "exit", in any casing and with any
    whitespace around it, nor after an interrupt: what follows in the
    input changes neither what is printed nor what is posted. *)
Theorem run_cli_stops_at_exit (pre post : list (option str)) (line : str)
        (w : world G) :
  (strip line <> [] -> py_lower (strip line) = lit "exit" ->
   run_cli_loop medical_db (pre ++ Some line :: post) w
   = run_cli_loop medical_db (pre ++ [Some line]) w)
  /\ run_cli_loop medical_db (pre ++ None :: post) w
     = run_cli_loop medical_db pre w.
Proof.
  split.
  - intros Hne Hexit. revert w.
    induction pre as [|[l|] pre IH]; intros w; cbn [app run_cli_loop].
    + destruct (strip line) as [|c q] eqn:Hq; [congruence|].
      cbn [truthy str_eqb negb]. rewrite Hexit. reflexivity.
    + destruct (negb (truthy (VStr (strip l)))); [now rewrite IH|].
      destruct (str_eqb (py_lower (strip l)) (lit "exit")); [reflexivity|].
      destruct (run_cli_turn medical_db (strip l) w) as [[s|e] w1];
        [now rewrite IH|reflexivity].
    + reflexivity.
  - revert w.
    induction pre as [|[l|] pre IH]; intros w; cbn [app run_cli_loop].
    + reflexivity.
    + destruct (negb (truthy (VStr (strip l)))); [now rewrite IH|].
      destruct (str_eqb (py_lower (strip l)) (lit "exit")); [reflexivity|].
      destruct (run_cli_turn medical_db (strip l) w) as [[s|e] w1];
        [now rewrite IH|reflexivity].
    + reflexivity.
Qed.




End SessionFacts.

Lemma run_cli_stops_at_exit_witness :
  run_cli_loop (generator := offline) (normalizer := sample_s2t)
               (casing := ascii_lower) sample_db
               ([Some (lit "   ")] ++ Some (lit " EXIT ") :: [Some (lit "頭痛")])
               {| gen := tt; sent := [] |}
  = run_cli_loop (generator := offline) (normalizer := sample_s2t)
                 (casing := ascii_lower) sample_db
                 ([Some (lit "   ")] ++ [Some (lit " EXIT ")])
                 {| gen := tt; sent := [] |}.
Proof.
  apply (proj1 (@run_cli_stops_at_exit unit offline sample_s2t ascii_lower
                  sample_db [Some (lit "   ")] [Some (lit "頭痛")]
                  (lit " EXIT ") {| gen := tt; sent := [] |})).
  - vm_compute. discriminate.
  - vm_compute. reflexivity.
Defined.


(* ================================================================= *)
(** ** The prompts *)

(** X21.  Both prompts carry the question as it was typed.  The prompt of
    the CLI names words it asks the model to avoid, "癌" and "死亡" among
    them, so the validator rejects the prompt itself whatever the
    question: an answer that repeats the prompt is never shown. *)
Theorem prompts_carry_question (question : str) :
  contains question (build_cli_prompt question) = true
  /\ contains question (build_web_prompt question) = true
  /\ (forall answer m,
         contains (build_cli_prompt question) answer = true ->
         fst (is_valid_response (VStr answer) m) = false).
Proof.
  assert (Hline : forall lines,
             In (lit "「" ++ question ++ lit "」") lines ->
             contains question (join newline lines) = true).
  { intros lines Hin.
    apply contains_trans with (s := lit "「" ++ question ++ lit "」").
    - apply contains_app_mid.
    - now apply contains_join_line. }
  split; [|split].
  - apply Hline. unfold In. tauto.
  - apply Hline. unfold In. tauto.
  - intros answer m Hin.
    assert (Hd : contains (lit "死亡") answer = true).
    { apply contains_trans with (s := build_cli_prompt question);
        [|exact Hin].
      apply contains_trans
        with (s := lit "請針對以下提問，用溫和、簡單、白話的語氣說明，千萬不要提到癌症、腎衰竭、死亡等詞語。").
      - vm_compute. reflexivity.
      - apply contains_join_line. unfold In. tauto. }
    rewrite valid_string_eq.
    assert (H : existsb (fun w => contains w answer)
                        (DANGER_WORDS ++ NONSENSE_WORDS) = true).
    { apply existsb_exists. exists (lit "死亡"). split; [|exact Hd].
      unfold DANGER_WORDS. cbn [app In]. tauto. }
    rewrite H. cbn [negb]. now rewrite andb_false_r.
Qed.

(* ================================================================= *)
(** ** The web front end validates the normalized text too *)

Section WebRevalidation.

Context {G : Type} {generator : Generator G} {normalizer : Normalizer}.

Variable medical_db : list (str * AdviceRecord).

(** X22.  As in [run_cli], an answer [query_ollama_web] accepted is thrown
    away by [run_web] when its normalized form is rejected: the wrapper is
    called again for the input with the hint on the next line, and its
    text is shown if it is accepted, the fallback template if not. *)
Theorem run_web_turn_accepted_then_rejected (user_input : str)
        (w : world G) (a : str) :
  truthy_reply (lookup_medical_db medical_db (Some user_input)) = false ->
  truthy (response_of w OLLAMA_URL_WEB
                      (web_payload (build_web_prompt user_input))) = true ->
  web_answer (response_of w OLLAMA_URL_WEB
                          (web_payload (build_web_prompt user_input)))
  = Ok a ->
  valid a = true -> valid (to_traditional a) = false ->
  run_web_turn medical_db user_input w
  = match query_ollama_web (user_input ++ newline ++ FALLBACK_HINT) false
            (posted w OLLAMA_URL_WEB
                    (web_payload (build_web_prompt user_input))) with
    | (Ok t, w2) =>
      (Ok (FromModel (to_traditional
                        (if valid t then t
                         else fallback_response user_input))), w2)
    | (Raise e, w2) => (Raise e, w2)
    end.
Proof.
  intros Hmiss Ht Ha Hv Hv'.
  exact (@turn_accepted_then_rejected G generator normalizer OLLAMA_URL_WEB
           (fun u => web_payload (build_web_prompt u))
           (fun u => u ++ lit "。" ++ FALLBACK_HINT)
           web_answer query_ollama_web
           query_ollama_web_eq (run_web_turn medical_db) _
           user_input (user_input ++ newline ++ FALLBACK_HINT) user_input
           (run_web_turn_eq medical_db user_input) Hmiss w a Ht Ha Hv Hv').
Qed.

End WebRevalidation.

Lemma run_web_turn_accepted_then_rejected_witness :
  fst (run_web_turn (generator := scripted) (normalizer := s2t_wide)
                    sample_db (lit "頭痛")
                    (start [Some (generate_body worsening60)]))
  = Ok (FromModel (to_traditional (normalizer := s2t_wide)
                                  (fallback_response (lit "頭痛")))).
Proof.
  rewrite (@run_web_turn_accepted_then_rejected _ scripted s2t_wide sample_db
             (lit "頭痛") (start [Some (generate_body worsening60)])
             worsening60);
    vm_compute; reflexivity.
Defined.

(* ================================================================= *)
(** ** A response body of another layout *)

Section IllShapedBody.

Context {G : Type} {generator : Generator G} {normalizer : Normalizer}.

Variable medical_db : list (str * AdviceRecord).

Lemma run_cli_turn_ill_shaped (question : str) (w : world G) :
  truthy_reply (lookup_medical_db medical_db (Some question)) = false ->
  truthy (response_of w OLLAMA_URL_CLI
                      (cli_payload (build_cli_prompt question))) = true ->
  (exists e, cli_answer (response_of w OLLAMA_URL_CLI
                           (cli_payload (build_cli_prompt question)))
             = Raise e) ->
  run_cli_turn medical_db question w
  = (Raise AttributeError,
     posted w OLLAMA_URL_CLI (cli_payload (build_cli_prompt question))).
Proof.
  intros Hmiss Ht (e & Ha).
  rewrite run_cli_turn_eq, Hmiss. unfold model_path, bind.
  rewrite query_ollama_cli_eq, Ht, Ha.
  now rewrite (@cli_answer_exn _ e Ha).
Qed.

Lemma run_web_turn_ill_shaped (user_input : str) (w : world G) :
  truthy_reply (lookup_medical_db medical_db (Some user_input)) = false ->
  truthy (response_of w OLLAMA_URL_WEB
                      (web_payload (build_web_prompt user_input))) = true ->
  (exists e, web_answer (response_of w OLLAMA_URL_WEB
                           (web_payload (build_web_prompt user_input)))
             = Raise e) ->
  run_web_turn medical_db user_input w
  = (Raise AttributeError,
     posted w OLLAMA_URL_WEB (web_payload (build_web_prompt user_input))).
Proof.
  intros Hmiss Ht (e & Ha).
  rewrite run_web_turn_eq, Hmiss. unfold model_path, bind.
  rewrite query_ollama_web_eq, Ht, Ha.
  now rewrite (@web_answer_exn _ e Ha).
Qed.

(** C8 fails on a response the service answers with success but whose
    body has another layout than the wrapper reads ("message" not a dict,
    "content" or "response" not a string): the wrapper raises
    [AttributeError] after its first post, nothing catches it in
    [query_ollama_cli], [query_ollama_web], [run_cli] or [run_web], and
    the request ends without a reply: no retry, and no fallback
    template. *)
Theorem ill_shaped_body_raises (question : str) (w : world G) :
  (truthy_reply (lookup_medical_db medical_db (Some question)) = false ->
   truthy (response_of w OLLAMA_URL_CLI
                       (cli_payload (build_cli_prompt question))) = true ->
   (exists e, cli_answer (response_of w OLLAMA_URL_CLI
                            (cli_payload (build_cli_prompt question)))
              = Raise e) ->
   run_cli_turn medical_db question w
   = (Raise AttributeError,
      posted w OLLAMA_URL_CLI (cli_payload (build_cli_prompt question))))
  /\ (truthy_reply (lookup_medical_db medical_db (Some question)) = false ->
      truthy (response_of w OLLAMA_URL_WEB
                          (web_payload (build_web_prompt question))) = true ->
      (exists e, web_answer (response_of w OLLAMA_URL_WEB
                               (web_payload (build_web_prompt question)))
                 = Raise e) ->
      run_web_turn medical_db question w
      = (Raise AttributeError,
         posted w OLLAMA_URL_WEB (web_payload (build_web_prompt question)))).
Proof.
  split.
  - apply run_cli_turn_ill_shaped.
  - apply run_web_turn_ill_shaped.
Qed.

(** In a session of [run_cli] the exception ends the loop: nothing is
    shown for the request and the rest of the input is not read. *)
Lemma ill_shaped_body_ends_session {casing : Casing}
      (line : str) (rest : list (option str)) (w : world G) :
  strip line <> [] -> py_lower (strip line) <> lit "exit" ->
  truthy_reply (lookup_medical_db medical_db (Some (strip line))) = false ->
  truthy (response_of w OLLAMA_URL_CLI
                      (cli_payload (build_cli_prompt (strip line)))) = true ->
  (exists e, cli_answer (response_of w OLLAMA_URL_CLI
                           (cli_payload (build_cli_prompt (strip line))))
             = Raise e) ->
  run_cli_loop medical_db (Some line :: rest) w
  = (([], Some AttributeError),
     posted w OLLAMA_URL_CLI (cli_payload (build_cli_prompt (strip line)))).
Proof.
  intros Hne Hexit Hmiss Ht Ha. cbn [run_cli_loop].
  destruct (strip line) as [|c q] eqn:Hq; [congruence|].
  cbn [truthy str_eqb negb].
  destruct (str_eqb (py_lower (c :: q)) (lit "exit")) eqn:E.
  - apply str_eqb_eq in E. contradiction.
  - now rewrite (run_cli_turn_ill_shaped (c :: q) w Hmiss Ht Ha).
Qed.

End IllShapedBody.

Lemma ill_shaped_body_raises_witness :
  run_cli_turn (generator := scripted) (normalizer := sample_s2t)
               sample_db (lit "頭痛")
               (start [Some (VDict [(lit "message", VStr (lit "oops"))]);
                       Some (chat_body clean60)])
  = (Raise AttributeError,
     {| gen := [Some (chat_body clean60)];
        sent := [(OLLAMA_URL_CLI,
                  cli_payload (build_cli_prompt (lit "頭痛")))] |})
  /\ run_web_turn (generator := scripted) (normalizer := sample_s2t)
                  sample_db (lit "頭痛")
                  (start [Some (VDict [(lit "response", VInt 5)]);
                          Some (generate_body clean60)])
     = (Raise AttributeError,
        {| gen := [Some (generate_body clean60)];
           sent := [(OLLAMA_URL_WEB,
                     web_payload (build_web_prompt (lit "頭痛")))] |}).
Proof.
  split.
  - rewrite (proj1 (@ill_shaped_body_raises _ scripted sample_s2t sample_db
                      (lit "頭痛")
                      (start [Some (VDict [(lit "message", VStr (lit "oops"))]);
                              Some (chat_body clean60)])));
      try (vm_compute; reflexivity).
    exists AttributeError. vm_compute. reflexivity.
  - rewrite (proj2 (@ill_shaped_body_raises _ scripted sample_s2t sample_db
                      (lit "頭痛")
                      (start [Some (VDict [(lit "response", VInt 5)]);
                              Some (generate_body clean60)])));
      try (vm_compute; reflexivity).
    exists AttributeError. vm_compute. reflexivity.
Defined.
